(** * pygconsole: the presentation stream and the ECMA-48 decoder

    A shallow embedding of [pygconsole/console.py] (class [Console]) and
    [pygconsole/io.py] (class [RawIOConsole]), followed by the properties
    established about them.

    Python objects are mutable and an exception leaves behind every
    assignment made before it was raised.  Methods are therefore embedded
    as functions from the object's state to an outcome (a value or a raised
    exception) together with the state reached.  pygame (fonts, surfaces,
    blits) is an external collaborator: its calls are left out, but every
    read of the presentation stream made while rendering is kept, because
    indexing a deque is where rendering can raise.  pygame itself refuses
    some cells (a text with a null character, a colour component outside
    0..255): an outcome [Ok] is the outcome on a console whose cells
    pygame draws, and the properties about new consoles and new text
    state a sufficient condition for that, [renderable]. *)

From Stdlib Require Import ZArith Lia Strings.Byte String Ascii FunInd.
From stdpp Require Import base list strings gmap.

Open Scope Z_scope.

(** ** The Python runtime, as far as the two modules use it *)

Inductive exn :=
| IndexError
| TypeError
| ValueError
| UnicodeDecodeError
| ZeroDivisionError.

Inductive outcome (A : Type) :=
| Ok (a : A)
| Raise (e : exn).
Arguments Ok {A} a.
Arguments Raise {A} e.

(** A method of an object whose state has type [S]. *)
Definition M (S A : Type) : Type := S -> outcome A * S.

Definition ret {S A} (a : A) : M S A := fun s => (Ok a, s).

Definition bind {S A B} (m : M S A) (k : A -> M S B) : M S B :=
  fun s =>
    match m s with
    | (Ok a, s') => k a s'
    | (Raise e, s') => (Raise e, s')
    end.

Definition raise {S A} (e : exn) : M S A := fun s => (Raise e, s).
Definition get {S} : M S S := fun s => (Ok s, s).
Definition modify {S} (f : S -> S) : M S unit := fun s => (Ok tt, f s).
Definition lift_outcome {S A} (o : outcome A) : M S A := fun s => (o, s).

Declare Scope monad_scope.
Delimit Scope monad_scope with monad.
Notation "x <- c1 ;; c2" := (bind c1 (fun x => c2))
  (at level 100, c1 at next level, right associativity) : monad_scope.
Notation "c1 ;; c2" := (bind c1 (fun _ => c2))
  (at level 100, right associativity) : monad_scope.
Open Scope monad_scope.

(** [for x in l: body(x)] *)
Fixpoint for_each {S A} (l : list A) (body : A -> M S unit) : M S unit :=
  match l with
  | [] => ret tt
  | x :: l' => body x ;; for_each l' body
  end.

(** [for x in l: acc = body(acc, x)], for loops that update local variables. *)
Fixpoint for_fold {S A B} (l : list A) (body : B -> A -> M S B) (acc : B) : M S B :=
  match l with
  | [] => ret acc
  | x :: l' => acc' <- body acc x ;; for_fold l' body acc'
  end.

Definition len {A} (l : list A) : Z := Z.of_nat (length l).

(** [range(a, b)] *)
Definition py_range (a b : Z) : list Z :=
  map (fun k => a + Z.of_nat k) (seq 0 (Z.to_nat (b - a))).

(** [l * n] on lists: a count below one gives the empty list. *)
Definition list_mul {A} (l : list A) (n : Z) : list A :=
  concat (replicate (Z.to_nat n) l).

(** A Python [str] is the sequence of its Unicode code points. *)
Definition pystr : Type := list Z.

Definition lit (s : string) : pystr :=
  map (fun a => Z.of_N (N_of_ascii a)) (list_ascii_of_string s).

Fixpoint pystr_eqb (s t : pystr) : bool :=
  match s, t with
  | [], [] => true
  | a :: s', b :: t' => (a =? b) && pystr_eqb s' t'
  | _, _ => false
  end.

(** [d[k]] and [k in d] for a dict literal whose keys are strings. *)
Fixpoint dict_get {V} (d : list (pystr * V)) (k : pystr) : option V :=
  match d with
  | [] => None
  | (k', v) :: d' => if pystr_eqb k' k then Some v else dict_get d' k
  end.

(** The values a caller can hand to a property setter.  Floats are left
    out; a tuple, a list and a namedtuple are all [VSeq]. *)
#[local] Set Warnings "-register-all".
Inductive value :=
| VStr (s : pystr)
| VInt (z : Z)
| VBool (b : bool)
| VNone
| VSeq (l : list value).

(** [len(v)] for a value that is not a [str]. *)
Definition py_len (v : value) : outcome Z :=
  match v with
  | VStr s => Ok (len s)
  | VSeq l => Ok (len l)
  | VInt _ | VBool _ | VNone => Raise TypeError
  end.

(** [v[i]] for the indexes 0..3 the setters use, on a sequence long enough. *)
Definition py_item (v : value) (i : nat) : value :=
  match v with
  | VSeq l => nth i l VNone
  | _ => VNone
  end.

(** [-1 < v < 256]: an [int] is compared, a [bool] is the int 0 or 1, any
    other operand makes [<] raise. *)
Definition in_byte_range (v : value) : outcome bool :=
  match v with
  | VInt z => Ok ((-1 <? z) && (z <? 256))
  | VBool _ => Ok true
  | VStr _ | VNone | VSeq _ => Raise TypeError
  end.

(** [a and b], where evaluating [b] may raise and is skipped when [a] is false. *)
Definition py_and (a : outcome bool) (b : outcome bool) : outcome bool :=
  match a with
  | Ok true => b
  | Ok false => Ok false
  | Raise e => Raise e
  end.

(** The integer held by a value that passed [in_byte_range]. *)
Definition int_of_value (v : value) : Z :=
  match v with
  | VInt z => z
  | VBool b => if b then 1 else 0
  | _ => 0
  end.

(** *** [collections.deque] with a [maxlen] *)

Record deque (A : Type) := mk_deque { items : list A; maxlen : Z }.
Arguments mk_deque {A} items maxlen.
Arguments items {A} d.
Arguments maxlen {A} d.

(** Appending to a full deque discards from the left: only the last
    [maxlen] items remain. *)
Definition deque_trim {A} (l : list A) (maxlen : Z) : list A :=
  drop (length l - Z.to_nat maxlen)%nat l.

(** [deque(iterable, maxlen)] *)
Definition deque_new {A} (iterable : list A) (maxlen : Z) : outcome (deque A) :=
  if maxlen <? 0 then Raise ValueError
  else Ok (mk_deque (deque_trim iterable maxlen) maxlen).

(** [d.extend(iterable)] *)
Definition deque_extend {A} (d : deque A) (iterable : list A) : deque A :=
  mk_deque (deque_trim (items d ++ iterable) (maxlen d)) (maxlen d).

(** The position an index designates: [0 <= i < len(d)] counts from the
    left, [-len(d) <= i < 0] from the right, anything else is out of range. *)
Definition deque_index {A} (d : deque A) (i : Z) : option nat :=
  let n := len (items d) in
  if (0 <=? i) && (i <? n) then Some (Z.to_nat i)
  else if (- n <=? i) && (i <? 0) then Some (Z.to_nat (i + n))
  else None.

(** [d[i]] *)
Definition deque_getitem {A} (d : deque A) (i : Z) : outcome A :=
  match deque_index d i with
  | Some k =>
      match items d !! k with
      | Some x => Ok x
      | None => Raise IndexError
      end
  | None => Raise IndexError
  end.

(** [d[i] = x] *)
Definition deque_setitem {A} (d : deque A) (i : Z) (x : A) : outcome (deque A) :=
  match deque_index d i with
  | Some k => Ok (mk_deque (<[k:=x]> (items d)) (maxlen d))
  | None => Raise IndexError
  end.

(** The records a logger receives, by level. *)
Inductive levelname := DEBUG | INFO | WARNING.

(** ** console.py *)

(** [Colour = namedtuple("Colour", "red green blue alpha")] *)
Record Colour := mkColour { red : Z; green : Z; blue : Z; alpha : Z }.

(** [colour._replace(alpha = a)] *)
Definition _replace_alpha (colour : Colour) (a : Z) : Colour :=
  mkColour (red colour) (green colour) (blue colour) a.

(** A [Colour] seen as the 4-tuple it is. *)
Definition value_of_colour (colour : Colour) : value :=
  VSeq [VInt (red colour); VInt (green colour); VInt (blue colour); VInt (alpha colour)].

(** [Colour._make(v0, v1, v2, v3)] on components that passed the range test. *)
Definition Colour_make (v0 v1 v2 v3 : value) : Colour :=
  mkColour (int_of_value v0) (int_of_value v1) (int_of_value v2) (int_of_value v3).

(** [Coordinates = namedtuple("Coordinates", "x y")] *)
Module Coordinates.
Record t := mk { x : Z; y : Z }.
End Coordinates.

(** The dataclass [CharArgs]: one written cell. *)
Module CharArgs.
Record t := mk {
  foreground_colour : Colour;
  background_colour : Colour;
  italic : bool;
  bold : bool;
  underline : bool;
  str : pystr
}.
End CharArgs.

Module Console.

(** The instance attributes of a [Console] that its data model rests on.
    [log] collects the levels of the records sent to [self.log]. *)
Record t := mk {
  _width : Z;
  _height : Z;
  _font_transparency : Z;
  _background_transparency : Z;
  _italic : bool;
  _bold : bool;
  _underline : bool;
  _default_foreground_colour : Colour;
  _default_background_colour : Colour;
  _current_foreground_colour : Colour;
  _current_background_colour : Colour;
  _char_memory_size : Z;
  _presentation_stream : deque (option CharArgs.t);
  _cursor : Z;
  _start_window : Z;
  _end_window : Z;
  log : list levelname
}.

(** Assignments to one attribute. *)
Definition set_width (v : Z) (c : t) : t :=
  mk v (_height c) (_font_transparency c) (_background_transparency c) (_italic c)
    (_bold c) (_underline c) (_default_foreground_colour c)
    (_default_background_colour c) (_current_foreground_colour c)
    (_current_background_colour c) (_char_memory_size c) (_presentation_stream c)
    (_cursor c) (_start_window c) (_end_window c) (log c).
Definition set_height (v : Z) (c : t) : t :=
  mk (_width c) v (_font_transparency c) (_background_transparency c) (_italic c)
    (_bold c) (_underline c) (_default_foreground_colour c)
    (_default_background_colour c) (_current_foreground_colour c)
    (_current_background_colour c) (_char_memory_size c) (_presentation_stream c)
    (_cursor c) (_start_window c) (_end_window c) (log c).
Definition set_font_transparency (v : Z) (c : t) : t :=
  mk (_width c) (_height c) v (_background_transparency c) (_italic c) (_bold c)
    (_underline c) (_default_foreground_colour c) (_default_background_colour c)
    (_current_foreground_colour c) (_current_background_colour c) (_char_memory_size c)
    (_presentation_stream c) (_cursor c) (_start_window c) (_end_window c) (log c).
Definition set_background_transparency (v : Z) (c : t) : t :=
  mk (_width c) (_height c) (_font_transparency c) v (_italic c) (_bold c)
    (_underline c) (_default_foreground_colour c) (_default_background_colour c)
    (_current_foreground_colour c) (_current_background_colour c) (_char_memory_size c)
    (_presentation_stream c) (_cursor c) (_start_window c) (_end_window c) (log c).
Definition set_italic (v : bool) (c : t) : t :=
  mk (_width c) (_height c) (_font_transparency c) (_background_transparency c) v
    (_bold c) (_underline c) (_default_foreground_colour c)
    (_default_background_colour c) (_current_foreground_colour c)
    (_current_background_colour c) (_char_memory_size c) (_presentation_stream c)
    (_cursor c) (_start_window c) (_end_window c) (log c).
Definition set_bold (v : bool) (c : t) : t :=
  mk (_width c) (_height c) (_font_transparency c) (_background_transparency c)
    (_italic c) v (_underline c) (_default_foreground_colour c)
    (_default_background_colour c) (_current_foreground_colour c)
    (_current_background_colour c) (_char_memory_size c) (_presentation_stream c)
    (_cursor c) (_start_window c) (_end_window c) (log c).
Definition set_underline (v : bool) (c : t) : t :=
  mk (_width c) (_height c) (_font_transparency c) (_background_transparency c)
    (_italic c) (_bold c) v (_default_foreground_colour c)
    (_default_background_colour c) (_current_foreground_colour c)
    (_current_background_colour c) (_char_memory_size c) (_presentation_stream c)
    (_cursor c) (_start_window c) (_end_window c) (log c).
Definition set_default_foreground_colour (v : Colour) (c : t) : t :=
  mk (_width c) (_height c) (_font_transparency c) (_background_transparency c)
    (_italic c) (_bold c) (_underline c) v (_default_background_colour c)
    (_current_foreground_colour c) (_current_background_colour c) (_char_memory_size c)
    (_presentation_stream c) (_cursor c) (_start_window c) (_end_window c) (log c).
Definition set_default_background_colour (v : Colour) (c : t) : t :=
  mk (_width c) (_height c) (_font_transparency c) (_background_transparency c)
    (_italic c) (_bold c) (_underline c) (_default_foreground_colour c) v
    (_current_foreground_colour c) (_current_background_colour c) (_char_memory_size c)
    (_presentation_stream c) (_cursor c) (_start_window c) (_end_window c) (log c).
Definition set_current_foreground_colour (v : Colour) (c : t) : t :=
  mk (_width c) (_height c) (_font_transparency c) (_background_transparency c)
    (_italic c) (_bold c) (_underline c) (_default_foreground_colour c)
    (_default_background_colour c) v (_current_background_colour c)
    (_char_memory_size c) (_presentation_stream c) (_cursor c) (_start_window c)
    (_end_window c) (log c).
Definition set_current_background_colour (v : Colour) (c : t) : t :=
  mk (_width c) (_height c) (_font_transparency c) (_background_transparency c)
    (_italic c) (_bold c) (_underline c) (_default_foreground_colour c)
    (_default_background_colour c) (_current_foreground_colour c) v
    (_char_memory_size c) (_presentation_stream c) (_cursor c) (_start_window c)
    (_end_window c) (log c).
Definition set_char_memory_size (v : Z) (c : t) : t :=
  mk (_width c) (_height c) (_font_transparency c) (_background_transparency c)
    (_italic c) (_bold c) (_underline c) (_default_foreground_colour c)
    (_default_background_colour c) (_current_foreground_colour c)
    (_current_background_colour c) v (_presentation_stream c) (_cursor c)
    (_start_window c) (_end_window c) (log c).
Definition set_presentation_stream (v : deque (option CharArgs.t)) (c : t) : t :=
  mk (_width c) (_height c) (_font_transparency c) (_background_transparency c)
    (_italic c) (_bold c) (_underline c) (_default_foreground_colour c)
    (_default_background_colour c) (_current_foreground_colour c)
    (_current_background_colour c) (_char_memory_size c) v (_cursor c)
    (_start_window c) (_end_window c) (log c).
Definition set_cursor (v : Z) (c : t) : t :=
  mk (_width c) (_height c) (_font_transparency c) (_background_transparency c)
    (_italic c) (_bold c) (_underline c) (_default_foreground_colour c)
    (_default_background_colour c) (_current_foreground_colour c)
    (_current_background_colour c) (_char_memory_size c) (_presentation_stream c) v
    (_start_window c) (_end_window c) (log c).
Definition set_start_window (v : Z) (c : t) : t :=
  mk (_width c) (_height c) (_font_transparency c) (_background_transparency c)
    (_italic c) (_bold c) (_underline c) (_default_foreground_colour c)
    (_default_background_colour c) (_current_foreground_colour c)
    (_current_background_colour c) (_char_memory_size c) (_presentation_stream c)
    (_cursor c) v (_end_window c) (log c).
Definition set_end_window (v : Z) (c : t) : t :=
  mk (_width c) (_height c) (_font_transparency c) (_background_transparency c)
    (_italic c) (_bold c) (_underline c) (_default_foreground_colour c)
    (_default_background_colour c) (_current_foreground_colour c)
    (_current_background_colour c) (_char_memory_size c) (_presentation_stream c)
    (_cursor c) (_start_window c) v (log c).
Definition set_log (v : list levelname) (c : t) : t :=
  mk (_width c) (_height c) (_font_transparency c) (_background_transparency c)
    (_italic c) (_bold c) (_underline c) (_default_foreground_colour c)
    (_default_background_colour c) (_current_foreground_colour c)
    (_current_background_colour c) (_char_memory_size c) (_presentation_stream c)
    (_cursor c) (_start_window c) (_end_window c) v.

(** *** Class attributes *)

Definition DEFAULT_ALPHA : Z := 255.
Definition DEFAULT_FOREGROUND_COLOUR : Colour := mkColour 255 255 255 DEFAULT_ALPHA.
Definition DEFAULT_BACKGROUND_COLOUR : Colour := mkColour 0 0 0 DEFAULT_ALPHA.
Definition DEFAULT_CHAR_MEMORY_SIZE : Z := 80 * 24 * 10.

Definition STANDARD_COLOURS : list (pystr * Colour) :=
  [ (lit "black", mkColour 0 0 0 DEFAULT_ALPHA);
    (lit "red", mkColour 170 0 0 DEFAULT_ALPHA);
    (lit "green", mkColour 0 170 0 DEFAULT_ALPHA);
    (lit "yellow", mkColour 170 85 0 DEFAULT_ALPHA);
    (lit "blue", mkColour 0 0 170 DEFAULT_ALPHA);
    (lit "magenta", mkColour 170 0 170 DEFAULT_ALPHA);
    (lit "cyan", mkColour 0 170 170 DEFAULT_ALPHA);
    (lit "white", mkColour 170 170 170 DEFAULT_ALPHA);
    (lit "bright_black", mkColour 85 85 85 DEFAULT_ALPHA);
    (lit "bright_red", mkColour 255 85 85 DEFAULT_ALPHA);
    (lit "bright_green", mkColour 85 255 85 DEFAULT_ALPHA);
    (lit "bright_yellow", mkColour 255 255 85 DEFAULT_ALPHA);
    (lit "bright_blue", mkColour 85 85 255 DEFAULT_ALPHA);
    (lit "bright_magenta", mkColour 255 85 255 DEFAULT_ALPHA);
    (lit "bright_cyan", mkColour 85 255 255 DEFAULT_ALPHA);
    (lit "bright_white", mkColour 255 255 255 DEFAULT_ALPHA) ].

(** [self.log.debug(...)], [self.log.warning(...)] *)
Definition log_record (l : levelname) : M t unit :=
  modify (fun c => set_log (log c ++ [l]) c).

(** *** Properties, read side *)

Definition foreground_colour (c : t) : Colour := _current_foreground_colour c.
Definition background_colour (c : t) : Colour := _current_background_colour c.
Definition font_transparency (c : t) : Z := _font_transparency c.
Definition background_transparency (c : t) : Z := _background_transparency c.
Definition italic (c : t) : bool := _italic c.
Definition bold (c : t) : bool := _bold c.
Definition underline (c : t) : bool := _underline c.
Definition memory_size (c : t) : Z := _char_memory_size c.
Definition width (c : t) : Z := _width c.
Definition height (c : t) : Z := _height c.

(** [self._presentation_stream[index]] *)
Definition stream_getitem (index : Z) : M t (option CharArgs.t) :=
  fun c => (deque_getitem (_presentation_stream c) index, c).

(** [self._presentation_stream[index] = x] *)
Definition stream_setitem (index : Z) (x : option CharArgs.t) : M t unit :=
  fun c =>
    match deque_setitem (_presentation_stream c) index x with
    | Ok d => (Ok tt, set_presentation_stream d c)
    | Raise e => (Raise e, c)
    end.

(** [len(self._presentation_stream)] *)
Definition stream_len (c : t) : Z := len (items (_presentation_stream c)).

(** *** Rendering

    What [_render_char], [_render_chars] and [_render_all] do to the data
    model: they read [self._presentation_stream[index]] for each index they
    draw, and change nothing. *)

Definition _render_char (index : Z) : M t unit :=
  _ <- stream_getitem index ;; ret tt.

Definition _render_chars (list_of_indexes : list Z) : M t unit :=
  for_each list_of_indexes _render_char.

Definition _render_all : M t unit :=
  c <- get ;;
  for_each (py_range (_start_window c) (_end_window c + 1)) _render_char.

(** [[None] * self._width * self._height] *)
Definition blank_page (c : t) : list (option CharArgs.t) :=
  list_mul (list_mul [None] (_width c)) (_height c).

(** The four statements headed "Console re-init": a new stream of blank
    cells bounded by [_char_memory_size], cursor and window at the origin. *)
Definition console_reinit : M t unit :=
  c <- get ;;
  d <- lift_outcome (deque_new (blank_page c) (_char_memory_size c)) ;;
  modify (set_presentation_stream d) ;;
  modify (set_cursor 0) ;;
  modify (set_start_window 0) ;;
  c <- get ;;
  modify (set_end_window (_width c * _height c - 1)).

(** *** Properties, write side *)

(** [font_transparency] setter, for an [int] argument: [int(value)] is
    then [value] itself and the [ValueError] handler is not entered. *)
Definition font_transparency_set (value : Z) : M t unit :=
  let value_int := value in
  let value_int :=
    if value_int >? 255 then 255
    else if value_int <? 0 then 0
    else value_int in
  modify (set_font_transparency value_int) ;;
  log_record DEBUG ;;
  _render_all.

(** [background_transparency] setter, for an [int] argument. *)
Definition background_transparency_set (value : Z) : M t unit :=
  let value_int := value in
  let value_int :=
    if value_int >? 255 then 255
    else if value_int <? 0 then 0
    else value_int in
  modify (set_background_transparency value_int) ;;
  log_record DEBUG ;;
  _render_all.

(** [-1 < value[0] < 256 and ... and -1 < value[n-1] < 256] *)
Definition components_in_range (value : value) (n : nat) : outcome bool :=
  fold_right (fun i rest => py_and (in_byte_range (py_item value i)) rest)
    (Ok true) (seq 0 n).

(** [foreground_colour] setter *)
Definition foreground_colour_set (value : value) : M t unit :=
  match value with
  | VStr s =>
      match dict_get STANDARD_COLOURS s with
      | Some colour =>
          c <- get ;;
          modify (set_current_foreground_colour
                    (_replace_alpha colour (font_transparency c))) ;;
          log_record DEBUG
      | None =>
          if pystr_eqb s (lit "default") then
            c <- get ;;
            modify (set_current_foreground_colour
                      (_replace_alpha (_default_foreground_colour c)
                         (font_transparency c))) ;;
            log_record DEBUG
          else ret tt
      end
  | _ =>
      n <- lift_outcome (py_len value) ;;
      if n =? 4 then
        ok <- lift_outcome (components_in_range value 4) ;;
        if ok then
          modify (set_current_foreground_colour
                    (Colour_make (py_item value 0) (py_item value 1)
                       (py_item value 2) (py_item value 3))) ;;
          font_transparency_set (int_of_value (py_item value 3)) ;;
          log_record DEBUG
        else log_record WARNING
      else if n =? 3 then
        ok <- lift_outcome (components_in_range value 3) ;;
        if ok then
          c <- get ;;
          modify (set_current_foreground_colour
                    (Colour_make (py_item value 0) (py_item value 1)
                       (py_item value 2) (VInt (font_transparency c)))) ;;
          log_record DEBUG
        else log_record WARNING
      else log_record WARNING
  end.

(** [background_colour] setter *)
Definition background_colour_set (value : value) : M t unit :=
  match value with
  | VStr s =>
      match dict_get STANDARD_COLOURS s with
      | Some colour =>
          c <- get ;;
          modify (set_current_background_colour
                    (_replace_alpha colour (background_transparency c))) ;;
          log_record DEBUG
      | None =>
          if pystr_eqb s (lit "default") then
            c <- get ;;
            modify (set_current_background_colour
                      (_replace_alpha (_default_background_colour c)
                         (background_transparency c))) ;;
            log_record DEBUG
          else ret tt
      end
  | _ =>
      n <- lift_outcome (py_len value) ;;
      if n =? 4 then
        ok <- lift_outcome (components_in_range value 4) ;;
        if ok then
          modify (set_current_background_colour
                    (Colour_make (py_item value 0) (py_item value 1)
                       (py_item value 2) (py_item value 3))) ;;
          background_transparency_set (int_of_value (py_item value 3)) ;;
          log_record DEBUG
        else log_record WARNING
      else if n =? 3 then
        ok <- lift_outcome (components_in_range value 3) ;;
        if ok then
          c <- get ;;
          modify (set_current_background_colour
                    (Colour_make (py_item value 0) (py_item value 1)
                       (py_item value 2) (VInt (background_transparency c)))) ;;
          log_record DEBUG
        else log_record WARNING
      else log_record WARNING
  end.

(** [italic], [bold] and [underline] setters: only a [bool] is stored. *)
Definition italic_set (value : value) : M t unit :=
  match value with
  | VBool b => modify (set_italic b)
  | _ => log_record WARNING
  end.

Definition bold_set (value : value) : M t unit :=
  match value with
  | VBool b => modify (set_bold b)
  | _ => log_record WARNING
  end.

Definition underline_set (value : value) : M t unit :=
  match value with
  | VBool b => modify (set_underline b)
  | _ => log_record WARNING
  end.

(** [memory_size], [width] and [height] setters, for [int] arguments. *)
Definition memory_size_set (value : Z) : M t unit :=
  c <- get ;;
  if value >=? _width c * _height c then
    modify (set_char_memory_size value) ;;
    console_reinit
  else log_record WARNING.

Definition width_set (value : Z) : M t unit :=
  if value >? 0 then
    modify (set_width value) ;;
    console_reinit
  else log_record WARNING.

Definition height_set (value : Z) : M t unit :=
  if value >? 0 then
    modify (set_height value) ;;
    console_reinit
  else log_record WARNING.

(** *** Public methods *)

(** [CharArgs()] filled from the current attributes. *)
Definition new_char_args (char : pystr) (c : t) : CharArgs.t :=
  CharArgs.mk (foreground_colour c) (background_colour c)
    (italic c) (bold c) (underline c) char.

(** "Adding a new line in the presentation stream if needed", the block
    both branches of [add_char] contain; the result is [render_all]. *)
Definition add_line_if_needed (render_all : bool) : M t bool :=
  c <- get ;;
  if _cursor c >=? stream_len c then
    modify (fun c => set_presentation_stream
              (deque_extend (_presentation_stream c) (list_mul [None] (width c))) c) ;;
    modify (fun c => set_start_window (_start_window c + width c) c) ;;
    modify (fun c => set_end_window (_end_window c + width c) c) ;;
    ret true
  else ret render_all.

(** The body of the loop over the characters of a longer string; [acc]
    holds the local variables [render_all] and [list_of_indexes]. *)
Definition add_char_step (acc : bool * list Z) (single_char : Z) : M t (bool * list Z) :=
  let (render_all, list_of_indexes) := acc in
  c <- get ;;
  let char_args := new_char_args [single_char] c in
  render_all <- add_line_if_needed render_all ;;
  c <- get ;;
  stream_setitem (_cursor c) (Some char_args) ;;
  let list_of_indexes := list_of_indexes ++ [_cursor c] in
  modify (fun c => set_cursor (_cursor c + 1) c) ;;
  ret (render_all, list_of_indexes).

Definition add_char (char : pystr) : M t unit :=
  if len char =? 0 then
    log_record DEBUG
  else if len char =? 1 then
    log_record DEBUG ;;
    c <- get ;;
    let char_args := new_char_args char c in
    render_all <- add_line_if_needed false ;;
    c <- get ;;
    stream_setitem (_cursor c) (Some char_args) ;;
    (if render_all : bool then _render_all else _render_char (_cursor c)) ;;
    modify (fun c => set_cursor (_cursor c + 1) c)
  else
    log_record DEBUG ;;
    acc <- for_fold char add_char_step (false, []) ;;
    let (render_all, list_of_indexes) := acc in
    if render_all then _render_all else _render_chars list_of_indexes.

Definition clear (mode : pystr) : M t unit :=
  (if pystr_eqb mode (lit "before") then
     log_record DEBUG ;;
     c <- get ;;
     for_each (py_range (_start_window c) (_cursor c))
       (fun index_char => stream_setitem index_char None)
   else if pystr_eqb mode (lit "after") then
     log_record DEBUG ;;
     c <- get ;;
     for_each (py_range (_cursor c) (_end_window c + 1))
       (fun index_char => stream_setitem index_char None)
   else if pystr_eqb mode (lit "all_without_memory") then
     log_record DEBUG ;;
     c <- get ;;
     for_each (py_range (_start_window c) (_end_window c + 1))
       (fun index_char => stream_setitem index_char None)
   else
     log_record DEBUG ;;
     console_reinit) ;;
  _render_all.

Definition scroll (nb_lines : Z) (up : bool) : M t unit :=
  (if up then
     log_record DEBUG ;;
     c <- get ;;
     (if _start_window c - _width c * nb_lines <? 0 then
        modify (set_start_window 0)
      else
        modify (set_start_window (_start_window c - _width c * nb_lines))) ;;
     c <- get ;;
     modify (set_end_window (_start_window c + _width c * _height c - 1))
   else
     log_record DEBUG ;;
     c <- get ;;
     (if _end_window c + _width c * nb_lines >? stream_len c then
        modify (set_end_window (stream_len c - 1))
      else
        modify (set_end_window (_end_window c + _width c * nb_lines))) ;;
     c <- get ;;
     modify (set_start_window (_end_window c - _width c * _height c + 1))) ;;
  _render_all.

(** [a // b] on ints. *)
Definition floordiv (a b : Z) : outcome Z :=
  if b =? 0 then Raise ZeroDivisionError else Ok (a / b).

(** The debug message of both methods formats [self._cursor // self._width]. *)
Definition carriage_return : M t unit :=
  c <- get ;;
  _ <- lift_outcome (floordiv (_cursor c) (_width c)) ;;
  log_record DEBUG ;;
  q <- lift_outcome (floordiv (_cursor c) (_width c)) ;;
  modify (set_cursor (q * _width c)).

Definition line_field : M t unit :=
  c <- get ;;
  _ <- lift_outcome (floordiv (_cursor c) (_width c)) ;;
  log_record DEBUG ;;
  modify (fun c => set_cursor (_cursor c + _width c) c).

(** [__init__] followed by [_init_console], for a name not yet registered:
    the attributes are assigned, then [_render_all] runs.  [font_size]
    only reaches pygame, which is left out: this is the constructor for a
    font size and transparencies pygame accepts. *)
Definition __init__ (width height font_transparency background_transparency : Z)
  : outcome unit * t :=
  _render_all
    (mk width height font_transparency background_transparency
       false false false
       (_replace_alpha DEFAULT_FOREGROUND_COLOUR font_transparency)
       (_replace_alpha DEFAULT_BACKGROUND_COLOUR background_transparency)
       (_replace_alpha DEFAULT_FOREGROUND_COLOUR font_transparency)
       (_replace_alpha DEFAULT_BACKGROUND_COLOUR background_transparency)
       DEFAULT_CHAR_MEMORY_SIZE
       (mk_deque
          (deque_trim (list_mul (list_mul [None] width) height)
             DEFAULT_CHAR_MEMORY_SIZE)
          DEFAULT_CHAR_MEMORY_SIZE)
       0 0 (width * height - 1) []).

(** [a % b] on ints. *)
Definition floormod (a b : Z) : outcome Z :=
  if b =? 0 then Raise ZeroDivisionError else Ok (a mod b).

(** [_chartopixcoord]: where a character is drawn, [None] outside the
    window.  [char_width] and [char_height] are the metrics
    [self._normal_font.size(" ")] returns. *)
Definition _chartopixcoord (char_width char_height : Z) (index_char : Z)
  : M t (option Coordinates.t) :=
  c <- get ;;
  if index_char <? _start_window c then ret None
  else if index_char >? _end_window c then ret None
  else
    column <- lift_outcome (floormod (index_char - _start_window c) (_width c)) ;;
    row <- lift_outcome (floordiv (index_char - _start_window c) (_width c)) ;;
    let x := column * char_width in
    let y := row * char_height in
    ret (Some (Coordinates.mk x y)).

(** [Console.get_console], on the class attribute [_instances] that maps
    each name to its console.  For a new name, [__init__] records the
    instance before it initialises it, so that the record stays when the
    initialisation raises; eight [info] records and one [debug] record
    follow a successful creation.  For a known name the instance is
    returned after one [info] and one [debug] record, and the other
    arguments are not read.  [font_size] only reaches pygame and the
    logger is the [log] of the instance. *)
Definition get_console (name : pystr)
    (width height font_transparency background_transparency : Z)
  : M (gmap pystr t) t :=
  fun _instances =>
    match _instances !! name with
    | None =>
        let '(r, self) :=
          __init__ width height font_transparency background_transparency in
        match r with
        | Raise e => (Raise e, <[name := self]> _instances)
        | Ok _ =>
            let self :=
              set_log (log self ++ [INFO; INFO; INFO; INFO; INFO; INFO; INFO; INFO;
                                    DEBUG]) self in
            (Ok self, <[name := self]> _instances)
        end
    | Some self =>
        let self := set_log (log self ++ [INFO; DEBUG]) self in
        (Ok self, <[name := self]> _instances)
    end.

End Console.

(** ** io.py *)

(** The integer a byte of a [bytearray] is. *)
Definition ord (b : byte) : Z := Z.of_N (Byte.to_N b).

(** [x in range(lo, hi)] *)
Definition in_range (lo hi x : Z) : bool := (lo <=? x) && (x <? hi).

(** *** The UTF-8 codec in strict mode

    [utf8_decode_at pos bs] decodes [bs], whose first byte sits at offset
    [pos] of the buffer: the text, or the offset at which the first
    ill-formed or truncated sequence starts, which is the [start]
    attribute of the [UnicodeDecodeError] raised.  Over-long forms,
    surrogates and code points above U+10FFFF are ill-formed. *)

Definition is_continuation (b : byte) : bool := in_range 0x80 0xC0 (ord b).

(** The second byte of a three-byte and of a four-byte sequence. *)
Definition second_of_3 (c1 : Z) (b2 : byte) : bool :=
  if c1 =? 0xE0 then in_range 0xA0 0xC0 (ord b2)
  else if c1 =? 0xED then in_range 0x80 0xA0 (ord b2)
  else is_continuation b2.

Definition second_of_4 (c1 : Z) (b2 : byte) : bool :=
  if c1 =? 0xF0 then in_range 0x90 0xC0 (ord b2)
  else if c1 =? 0xF4 then in_range 0x80 0x90 (ord b2)
  else is_continuation b2.

Definition utf8_cons (ch : Z) (r : pystr + nat) : pystr + nat :=
  match r with
  | inl s => inl (ch :: s)
  | inr start => inr start
  end.

Function utf8_decode_at (pos : nat) (bs : list byte) {struct bs} : pystr + nat :=
  match bs with
  | [] => inl []
  | b1 :: r1 =>
      let c1 := ord b1 in
      if c1 <? 0x80 then
        utf8_cons c1 (utf8_decode_at (1 + pos) r1)
      else if c1 <? 0xC2 then inr pos
      else if c1 <? 0xE0 then
        match r1 with
        | b2 :: r2 =>
            if is_continuation b2 then
              utf8_cons ((c1 - 0xC0) * 0x40 + (ord b2 - 0x80))
                (utf8_decode_at (2 + pos) r2)
            else inr pos
        | _ => inr pos
        end
      else if c1 <? 0xF0 then
        match r1 with
        | b2 :: b3 :: r3 =>
            if second_of_3 c1 b2 && is_continuation b3 then
              utf8_cons ((c1 - 0xE0) * 0x1000 + (ord b2 - 0x80) * 0x40
                         + (ord b3 - 0x80))
                (utf8_decode_at (3 + pos) r3)
            else inr pos
        | _ => inr pos
        end
      else if c1 <? 0xF5 then
        match r1 with
        | b2 :: b3 :: b4 :: r4 =>
            if second_of_4 c1 b2 && is_continuation b3 && is_continuation b4 then
              utf8_cons ((c1 - 0xF0) * 0x40000 + (ord b2 - 0x80) * 0x1000
                         + (ord b3 - 0x80) * 0x40 + (ord b4 - 0x80))
                (utf8_decode_at (4 + pos) r4)
            else inr pos
        | _ => inr pos
        end
      else inr pos
  end.

(** [codecs.decode(bs, encoding='utf-8', errors='strict')] *)
Definition utf8_decode (bs : list byte) : pystr + nat := utf8_decode_at 0 bs.

(** [bs.decode(encoding='utf-8')] *)
Definition bytes_decode (bs : list byte) : outcome pystr :=
  match utf8_decode bs with
  | inl s => Ok s
  | inr _ => Raise UnicodeDecodeError
  end.

(** *** [str] methods used by the decoder *)

(** [s.replace(old, new)] for one-character [old] and [new]. *)
Definition str_replace (s : pystr) (old new : Z) : pystr :=
  map (fun ch => if ch =? old then new else ch) s.

(** [s.split(sep)] for a one-character [sep]: the pieces between the
    separators, so a text without separator is its own single piece. *)
Fixpoint str_split (s : pystr) (sep : Z) : list pystr :=
  match s with
  | [] => [[]]
  | ch :: s' =>
      if ch =? sep then [] :: str_split s' sep
      else
        match str_split s' sep with
        | piece :: pieces => (ch :: piece) :: pieces
        | [] => [[ch]]
        end
  end.

(** [l[a:b]] for [0 <= a <= b]. *)
Definition slice {A} (l : list A) (a b : nat) : list A := take (b - a) (drop a l).

Module RawIOConsole.

(** *** Class constants *)

Inductive c0_name := LF | CR | ESC.
Inductive c1_name := CSI.
Inductive final_name := ED | SU | SD | SGR.
Inductive sgr_name :=
| reset | sgr_bold | sgr_italic | sgr_underline | negative
| not_bold | not_italic | not_underline | positive.

Definition CTRL_RANGE : Z -> bool := in_range 0 (0x1f + 1).

Definition SUPPORTED_C0_CTRL (b : Z) : option c0_name :=
  if b =? 0x0a then Some LF
  else if b =? 0x0d then Some CR
  else if b =? 0x1b then Some ESC
  else None.

Definition Fe_RANGE : Z -> bool := in_range 0x40 (0x5f + 1).

Definition SUPPORTED_C1_CTRL (b : Z) : option c1_name :=
  if b =? 0x5b then Some CSI else None.

Definition FINAL_RANGE : Z -> bool := in_range 0x40 (0x7e + 1).

Definition SUPPORTED_FINAL_CTRL (b : Z) : option final_name :=
  if b =? 0x4a then Some ED
  else if b =? 0x53 then Some SU
  else if b =? 0x54 then Some SD
  else if b =? 0x6d then Some SGR
  else None.

Definition SEPARATORS : pystr := lit ";:".

Definition SUPPORTED_SGR_PARAMETERS : list (pystr * sgr_name) :=
  [ (lit "0", reset);
    (lit "1", sgr_bold);
    (lit "3", sgr_italic);
    (lit "4", sgr_underline);
    (lit "7", negative);
    (lit "22", not_bold);
    (lit "23", not_italic);
    (lit "24", not_underline);
    (lit "27", positive) ].

Definition STANDARD_FOREGROUND_COLOURS : list (pystr * pystr) :=
  [ (lit "30", lit "black");
    (lit "31", lit "red");
    (lit "32", lit "green");
    (lit "33", lit "yellow");
    (lit "34", lit "blue");
    (lit "35", lit "magenta");
    (lit "36", lit "cyan");
    (lit "37", lit "white");
    (lit "90", lit "bright_black");
    (lit "91", lit "bright_red");
    (lit "92", lit "bright_green");
    (lit "93", lit "bright_yellow");
    (lit "94", lit "bright_blue");
    (lit "95", lit "bright_magenta");
    (lit "96", lit "bright_cyan");
    (lit "97", lit "bright_white") ].

Definition STANDARD_BACKGROUND_COLOURS : list (pystr * pystr) :=
  [ (lit "40", lit "black");
    (lit "41", lit "red");
    (lit "42", lit "green");
    (lit "43", lit "yellow");
    (lit "44", lit "blue");
    (lit "45", lit "magenta");
    (lit "46", lit "cyan");
    (lit "47", lit "white");
    (lit "100", lit "bright_black");
    (lit "101", lit "bright_red");
    (lit "102", lit "bright_green");
    (lit "103", lit "bright_yellow");
    (lit "104", lit "bright_blue");
    (lit "105", lit "bright_magenta");
    (lit "106", lit "bright_cyan");
    (lit "107", lit "bright_white") ].

(** What [_esc_seq_decode] returns. *)
Inductive decoded := successful | error | incomplete.

(** *** The stream object *)

Record t := mk {
  _console : Console.t;
  _byte_esc_seq : list byte;
  _byte_displaying_char : list byte;
  log : list levelname
}.

Definition set_console (v : Console.t) (s : t) : t :=
  mk v (_byte_esc_seq s) (_byte_displaying_char s) (log s).
Definition set_byte_esc_seq (v : list byte) (s : t) : t :=
  mk (_console s) v (_byte_displaying_char s) (log s).
Definition set_byte_displaying_char (v : list byte) (s : t) : t :=
  mk (_console s) (_byte_esc_seq s) v (log s).
Definition set_log (v : list levelname) (s : t) : t :=
  mk (_console s) (_byte_esc_seq s) (_byte_displaying_char s) v.

Definition log_record (l : levelname) : M t unit :=
  modify (fun s => set_log (log s ++ [l]) s).

(** A method call on [self.console]. *)
Definition on_console {A} (m : M Console.t A) : M t A :=
  fun s =>
    let (r, c) := m (_console s) in
    (r, set_console c s).

(** [sequence[i]] and [sequence[-1]], read where the sequence is long enough. *)
Definition byte_at (sequence : list byte) (i : nat) : Z := ord (nth i sequence x00).
Definition last_byte (sequence : list byte) : Z := ord (List.last sequence x00).

(** [sequence[2:len(sequence)-1]]: the parameter bytes. *)
Definition parameter_bytes (sequence : list byte) : list byte :=
  slice sequence 2 (length sequence - 1).

Section Decoder.

(** [int(b.decode(encoding='utf-8'))], the composition the three [try]
    blocks evaluate: [Some n] when it yields [n], [None] when it raises
    [ValueError] ([UnicodeDecodeError] is a [ValueError]).  The builtin is a
    parameter of the decoder. *)
Variable py_int : list byte -> option Z.

(** One SGR sub-parameter. *)
Definition sgr_param (param : pystr) : M Console.t unit :=
  match dict_get SUPPORTED_SGR_PARAMETERS param with
  | Some reset =>
      Console.bold_set (VBool false) ;;
      Console.italic_set (VBool false) ;;
      Console.underline_set (VBool false) ;;
      Console.foreground_colour_set (VStr (lit "default")) ;;
      Console.background_colour_set (VStr (lit "default"))
  | Some sgr_bold => Console.bold_set (VBool true)
  | Some sgr_italic => Console.italic_set (VBool true)
  | Some sgr_underline => Console.underline_set (VBool true)
  | Some negative =>
      c <- get ;;
      let temp_colour := Console.foreground_colour c in
      Console.foreground_colour_set (value_of_colour (Console.background_colour c)) ;;
      Console.background_colour_set (value_of_colour temp_colour)
  | Some not_bold => Console.bold_set (VBool false)
  | Some not_italic => Console.italic_set (VBool false)
  | Some not_underline => Console.underline_set (VBool false)
  | Some positive =>
      c <- get ;;
      let temp_colour := Console.foreground_colour c in
      Console.foreground_colour_set (value_of_colour (Console.background_colour c)) ;;
      Console.background_colour_set (value_of_colour temp_colour)
  | None =>
      match dict_get STANDARD_FOREGROUND_COLOURS param with
      | Some name => Console.foreground_colour_set (VStr name)
      | None =>
          match dict_get STANDARD_BACKGROUND_COLOURS param with
          | Some name => Console.background_colour_set (VStr name)
          | None => ret tt
          end
      end
  end.

(** The [SGR] branch. *)
Definition select_graphic_rendition (sequence : list byte) : M Console.t decoded :=
  let sep := nth 0 SEPARATORS 0 in
  formatted_sequence <- lift_outcome (bytes_decode (parameter_bytes sequence)) ;;
  let formatted_sequence :=
    fold_left (fun text any_sep => str_replace text any_sep sep)
      SEPARATORS formatted_sequence in
  let seq_list := str_split formatted_sequence sep in
  let seq_list := if len seq_list =? 0 then [lit "0"] else seq_list in
  for_each seq_list sgr_param ;;
  ret successful.

(** The [ED] branch. *)
Definition erase_in_display (sequence : list byte) : M Console.t decoded :=
  let mode :=
    match py_int (parameter_bytes sequence) with
    | Some n => n
    | None => 3
    end in
  if mode =? 0 then Console.clear (lit "after") ;; ret successful
  else if mode =? 1 then Console.clear (lit "before") ;; ret successful
  else if mode =? 2 then Console.clear (lit "all_without_memory") ;; ret successful
  else if mode =? 3 then Console.clear (lit "all") ;; ret successful
  else ret error.

(** The [SU] and [SD] branches. *)
Definition scroll_lines (sequence : list byte) (up : bool) : M Console.t decoded :=
  let nb_lines :=
    match py_int (parameter_bytes sequence) with
    | Some n => n
    | None => 1
    end in
  Console.scroll nb_lines up ;; ret successful.

Definition _esc_seq_decode (sequence : list byte) : M Console.t decoded :=
  if len sequence =? 0 then ret incomplete
  else if CTRL_RANGE (byte_at sequence 0) then
    match SUPPORTED_C0_CTRL (byte_at sequence 0) with
    | Some ESC =>
        if len sequence >? 1 then
          if Fe_RANGE (byte_at sequence 1) then
            match SUPPORTED_C1_CTRL (byte_at sequence 1) with
            | Some CSI =>
                if len sequence >? 2 then
                  if FINAL_RANGE (last_byte sequence) then
                    match SUPPORTED_FINAL_CTRL (last_byte sequence) with
                    | Some ED => erase_in_display sequence
                    | Some SU => scroll_lines sequence true
                    | Some SD => scroll_lines sequence false
                    | Some SGR => select_graphic_rendition sequence
                    | None => ret error
                    end
                  else ret incomplete
                else ret incomplete
            | None => ret error
            end
          else ret error
        else ret incomplete
    | Some LF => Console.line_field ;; ret successful
    | Some CR => Console.carriage_return ;; ret successful
    | None => ret error
    end
  else ret error.

(** The three-way test on the result of [_esc_seq_decode] that follows
    both of its calls in [write]. *)
Definition after_decode (decoded_esc_seq : decoded) : M t unit :=
  match decoded_esc_seq with
  | error => log_record WARNING ;; modify (set_byte_esc_seq [])
  | successful => log_record DEBUG ;; modify (set_byte_esc_seq [])
  | incomplete => ret tt
  end.

(** [if len(self._byte_displaying_char) > 0: self.console.add_char(...)] *)
Definition flush_displaying_char : M t unit :=
  s <- get ;;
  if len (_byte_displaying_char s) >? 0 then
    text <- lift_outcome (bytes_decode (_byte_displaying_char s)) ;;
    on_console (Console.add_char text) ;;
    modify (set_byte_displaying_char [])
  else ret tt.

(** The body of the loop over the bytes. *)
Definition write_byte (byte : Byte.byte) : M t unit :=
  s <- get ;;
  if len (_byte_esc_seq s) >? 0 then
    modify (fun s => set_byte_esc_seq (_byte_esc_seq s ++ [byte]) s) ;;
    s <- get ;;
    decoded_esc_seq <- on_console (_esc_seq_decode (_byte_esc_seq s)) ;;
    after_decode decoded_esc_seq
  else if CTRL_RANGE (ord byte) then
    flush_displaying_char ;;
    modify (fun s => set_byte_esc_seq (_byte_esc_seq s ++ [byte]) s) ;;
    s <- get ;;
    decoded_esc_seq <- on_console (_esc_seq_decode (_byte_esc_seq s)) ;;
    after_decode decoded_esc_seq
  else
    modify (fun s => set_byte_displaying_char (_byte_displaying_char s ++ [byte]) s).

(** The prefix [write] keeps: all of the buffer when it decodes,
    [byte_sequence[:err.start]] otherwise. *)
Definition utf8_check (bytestream : list byte) : list byte :=
  match utf8_decode bytestream with
  | inl _ => bytestream
  | inr start => take start bytestream
  end.

Definition write (bytestream : list byte) : M t Z :=
  let byte_sequence := utf8_check bytestream in
  let nb_decoded_bytes := len byte_sequence in
  for_each byte_sequence write_byte ;;
  flush_displaying_char ;;
  ret nb_decoded_bytes.

End Decoder.

(** [RawIOConsole(...)] over a console: both byte buffers start empty. *)
Definition __init__ (console : Console.t) : t := mk console [] [] [].

End RawIOConsole.

(** ** Notions the properties are stated with *)

Import Console.

(** The cell at index [i] of the presentation stream, if there is one. *)
Definition cell (c : t) (i : Z) : option (option CharArgs.t) :=
  items (_presentation_stream c) !! Z.to_nat i.

(** The invariants of the data model: positive dimensions, a memory that
    holds at least one page, a window of exactly one page lying inside the
    stream, a cursor that is not negative. *)
Record wf (c : t) : Prop := {
  wf_width : 0 < _width c;
  wf_height : 0 < _height c;
  wf_memory : _width c * _height c <= _char_memory_size c;
  wf_start : 0 <= _start_window c;
  wf_window : _end_window c = _start_window c + _width c * _height c - 1;
  wf_end : _end_window c < stream_len c;
  wf_cursor : 0 <= _cursor c
}.

Definition wf_check (c : t) : bool :=
  (0 <? _width c) && (0 <? _height c)
  && (_width c * _height c <=? _char_memory_size c)
  && (0 <=? _start_window c)
  && (_end_window c =? _start_window c + _width c * _height c - 1)
  && (_end_window c <? stream_len c)
  && (0 <=? _cursor c).

(** The stream holds as many cells as its bound allows. *)
Definition full (c : t) : Prop :=
  0 <= maxlen (_presentation_stream c)
  /\ stream_len c = maxlen (_presentation_stream c).

(** A buffer that is well-formed UTF-8. *)
Definition decodes (bs : list byte) : Prop := exists s, utf8_decode bs = inl s.

(** A console of two columns and two rows as [get_console] creates it, and
    the same console after [add_char("hi")]. *)
Definition console_2x2 : t :=
  mk 2 2 255 255 false false false
    (mkColour 255 255 255 255) (mkColour 0 0 0 255)
    (mkColour 255 255 255 255) (mkColour 0 0 0 255)
    19200 (mk_deque [None; None; None; None] 19200) 0 0 3 [].

Definition console_hi : t := snd (add_char (lit "hi") console_2x2).

(** An instance of the builtin for the examples: the value of a text made
    of ASCII decimal digits only; every other text, the empty one included,
    is refused. *)
Fixpoint digits_value (acc : Z) (bs : list byte) : option Z :=
  match bs with
  | [] => Some acc
  | b :: bs' =>
      if in_range 0x30 0x3a (ord b) then digits_value (10 * acc + (ord b - 0x30)) bs'
      else None
  end.

Definition int_of_digits (bs : list byte) : option Z :=
  match bs with
  | [] => None
  | _ => digits_value 0 bs
  end.

(** The state one more character leaves, and the state a text leaves. *)
Definition put_char (ch : Z) (c : t) : t := snd (add_char_step (false, []) ch c).
Definition put_chars (chars : pystr) (c : t) : t :=
  fold_left (fun c ch => put_char ch c) chars c.

(** Two states that differ by their log only. *)
Definition same_data (c c' : t) : Prop := set_log [] c = set_log [] c'.

(** Room for [n] more characters: the cursor is inside the stream or just
    behind it, and [k] more rows hold the text and fit in the memory. *)
Record room (c : t) (n k : Z) : Prop := {
  room_wf : wf c;
  room_cursor : _cursor c <= stream_len c;
  room_rows : 0 <= k;
  room_text : _cursor c + n <= stream_len c + _width c * k;
  room_memory : stream_len c + _width c * k <= maxlen (_presentation_stream c)
}.

(** The window shows the last page of the stream and the cursor is not
    above it: every index from the cursor to the end of the stream is then
    an index [_chartopixcoord] has coordinates for. *)
Definition at_bottom (c : t) : Prop :=
  _start_window c <= _cursor c /\ _end_window c = stream_len c - 1.

(** The cell [add_char] makes of a character. *)
Definition cell_of (c : t) (ch : Z) : option CharArgs.t := Some (new_char_args [ch] c).

(** A colour whose four components are bytes. *)
Definition colour_in_range (colour : Colour) : Prop :=
  0 <= red colour <= 255 /\ 0 <= green colour <= 255
  /\ 0 <= blue colour <= 255 /\ 0 <= alpha colour <= 255.

(** The console of two columns and two rows after [add_char("hello")]:
    one row was appended and the window moved down by one row. *)
Definition console_hello : t := snd (add_char (lit "hello") console_2x2).

(** What the fonts of the package certainly draw: printable ASCII text, in
    colours whose components are bytes. *)
Definition printable (chars : pystr) : Prop :=
  Forall (fun ch => 0x20 <= ch <= 0x7E) chars.

Definition drawable (a : CharArgs.t) : Prop :=
  printable (CharArgs.str a)
  /\ colour_in_range (CharArgs.foreground_colour a)
  /\ colour_in_range (CharArgs.background_colour a).

(** A state every cell of which can be drawn: the pen, with which the
    blank cells are drawn, has byte colours, and every written cell of the
    stream is drawable. *)
Definition renderable (c : t) : Prop :=
  colour_in_range (foreground_colour c)
  /\ colour_in_range (background_colour c)
  /\ Forall (fun x => match x with Some a => drawable a | None => True end)
       (items (_presentation_stream c)).



(** ** Ranges and rendering *)

Lemma py_range_nil a b : b <= a -> py_range a b = [].
Proof.
  intros H. unfold py_range. replace (Z.to_nat (b - a)) with 0%nat by lia. reflexivity.
Qed.

Lemma py_range_cons a b : a < b -> py_range a b = a :: py_range (a + 1) b.
Proof.
  intros H. unfold py_range.
  replace (Z.to_nat (b - a)) with (S (Z.to_nat (b - (a + 1)))) by lia.
  cbn [seq map]. f_equal; [lia|].
  rewrite <- seq_shift, map_map. apply map_ext. intros k. lia.
Qed.

Lemma py_range_to_nat a b :
  py_range a b = py_range a (a + Z.of_nat (Z.to_nat (b - a))).
Proof. unfold py_range. do 2 f_equal. lia. Qed.

(** Rendering reads cells and changes nothing. *)
Lemma render_cells_state (l : list Z) (c : t) : snd (for_each l _render_char c) = c.
Proof.
  induction l as [|i l IH]; [reflexivity|].
  cbn [for_each]. unfold bind at 1. unfold _render_char at 1, bind at 1, stream_getitem at 1.
  destruct (deque_getitem _ _); cbn; [apply IH | reflexivity].
Qed.

Lemma _render_all_state (c : t) : snd (_render_all c) = c.
Proof. unfold _render_all, bind, get. apply render_cells_state. Qed.

Lemma then_render_all_state {A} (m : M t A) (c : t) :
  snd ((m ;; _render_all) c) = snd (m c).
Proof.
  unfold bind at 1.
  destruct (m c) as [[a|e] c']; cbn [snd]; [apply _render_all_state | reflexivity].
Qed.

Lemma deque_index_in {A} (d : deque A) (i : Z) :
  0 <= i < len (items d) -> deque_index d i = Some (Z.to_nat i).
Proof.
  intros H. unfold deque_index.
  destruct (0 <=? i) eqn:E1; [|lia]. destruct (i <? len (items d)) eqn:E2; [|lia]. reflexivity.
Qed.

Lemma deque_index_out {A} (d : deque A) (i : Z) :
  len (items d) <= i -> deque_index d i = None.
Proof.
  intros H. unfold deque_index, len in *.
  destruct (i <? _) eqn:E2; [lia|]. rewrite andb_false_r.
  destruct (i <? 0) eqn:E3; [lia|]. rewrite andb_false_r. reflexivity.
Qed.

Lemma stream_setitem_in (c : t) (i : Z) x :
  0 <= i < stream_len c ->
  stream_setitem i x c =
    (Ok tt, set_presentation_stream
              (mk_deque (<[Z.to_nat i:=x]> (items (_presentation_stream c)))
                 (maxlen (_presentation_stream c))) c).
Proof.
  intros H. unfold stream_setitem, deque_setitem. rewrite deque_index_in by exact H. reflexivity.
Qed.

Lemma stream_setitem_out (c : t) (i : Z) x :
  stream_len c <= i -> stream_setitem i x c = (Raise IndexError, c).
Proof.
  intros H. unfold stream_setitem, deque_setitem. rewrite deque_index_out by exact H. reflexivity.
Qed.

Lemma stream_getitem_in (c : t) (i : Z) :
  0 <= i < stream_len c -> exists x, stream_getitem i c = (Ok x, c).
Proof.
  intros H. unfold stream_getitem, deque_getitem. rewrite deque_index_in by exact H.
  destruct (items (_presentation_stream c) !! Z.to_nat i) as [x|] eqn:E; [eauto|].
  apply lookup_ge_None in E. unfold stream_len, len in H. lia.
Qed.

Lemma render_cells_ok (n : nat) (a : Z) (c : t) :
  0 <= a -> a + Z.of_nat n <= stream_len c ->
  for_each (py_range a (a + Z.of_nat n)) _render_char c = (Ok tt, c).
Proof.
  revert a. induction n as [|n IH]; intros a Ha Hb.
  - rewrite py_range_nil by lia. reflexivity.
  - rewrite py_range_cons by lia. cbn [for_each]. unfold bind at 1, _render_char at 1, bind at 1.
    destruct (stream_getitem_in c a) as [x ->]; [lia|]. cbn.
    replace (a + Z.of_nat (S n)) with (a + 1 + Z.of_nat n) by lia. apply IH; lia.
Qed.

(** A window that lies inside the stream is rendered without exception. *)
Lemma _render_all_ok (c : t) :
  0 <= _start_window c -> _end_window c < stream_len c -> _render_all c = (Ok tt, c).
Proof.
  intros Hs He. unfold _render_all, bind, get.
  destruct (Z_le_gt_dec (_end_window c + 1) (_start_window c)) as [Hle|Hgt].
  - rewrite py_range_nil by lia. reflexivity.
  - replace (_end_window c + 1)
      with (_start_window c
            + Z.of_nat (Z.to_nat (_end_window c + 1 - _start_window c))) by lia.
    apply render_cells_ok; lia.
Qed.

Lemma set_stream_id (c : t) :
  set_presentation_stream
    (mk_deque (items (_presentation_stream c)) (maxlen (_presentation_stream c))) c = c.
Proof. destruct c as [? ? ? ? ? ? ? ? ? ? ? ? [? ?] ? ? ? ?]. reflexivity. Qed.

Lemma wf_check_sound (c : t) : wf_check c = true -> wf c.
Proof.
  unfold wf_check. intros H.
  repeat (apply andb_prop in H; destruct H as [H ?]).
  split; lia.
Qed.

(** ** Blanking a range of cells, the loop of the three partial clears *)

Lemma blank_cells (n : nat) (a : Z) (c : t) :
  0 <= a ->
  let r := for_each (py_range a (a + Z.of_nat n))
             (fun index_char => stream_setitem index_char None) c in
  exists cells,
    snd r = set_presentation_stream (mk_deque cells (maxlen (_presentation_stream c))) c
    /\ length cells = length (items (_presentation_stream c))
    /\ (forall k : nat, a <= Z.of_nat k < a + Z.of_nat n -> (k < length cells)%nat ->
        cells !! k = Some None)
    /\ (forall k : nat, ~ (a <= Z.of_nat k < a + Z.of_nat n) ->
        cells !! k = items (_presentation_stream c) !! k)
    /\ (a + Z.of_nat n <= stream_len c -> fst r = Ok tt)
    /\ ((0 < n)%nat -> stream_len c < a + Z.of_nat n -> fst r = Raise IndexError).
Proof.
  revert a c. induction n as [|n IH]; intros a c Ha r.
  - subst r. rewrite py_range_nil by lia. cbn.
    exists (items (_presentation_stream c)). rewrite set_stream_id.
    repeat split; try reflexivity; intros; lia.
  - subst r. rewrite py_range_cons by lia. cbn [for_each].
    replace (a + Z.of_nat (S n)) with (a + 1 + Z.of_nat n) by lia.
    set (rest := for_each _ _).
    destruct (Z_lt_ge_dec a (stream_len c)) as [Hin|Hout].
    + pose (c1 := set_presentation_stream
                    (mk_deque (<[Z.to_nat a:=None]> (items (_presentation_stream c)))
                       (maxlen (_presentation_stream c))) c).
      assert (E : (stream_setitem a None ;; rest) c = rest c1).
      { unfold bind. rewrite stream_setitem_in by lia. reflexivity. }
      rewrite E. clear E.
      assert (Hsl : stream_len c1 = stream_len c).
      { unfold c1, stream_len, len. cbn. rewrite length_insert. reflexivity. }
      destruct (IH (a + 1) c1 ltac:(lia)) as (cells & Hst & Hlen & Hin' & Hout' & Hok & Hraise).
      fold rest in Hst, Hok, Hraise. rewrite Hsl in Hok, Hraise.
      exists cells. subst c1.
      cbn [_presentation_stream set_presentation_stream items maxlen] in Hst, Hlen, Hout'.
      rewrite length_insert in Hlen.
      split; [rewrite Hst; reflexivity|]. split; [exact Hlen|].
      split; [|split; [|split]].
      * intros k Hk Hlt. destruct (Z.eq_dec (Z.of_nat k) a) as [Heq|Hne].
        -- rewrite Hout' by lia. replace (Z.to_nat a) with k by lia.
           apply list_lookup_insert_eq. lia.
        -- apply Hin'; lia.
      * intros k Hk. rewrite Hout' by lia. apply list_lookup_insert_ne. lia.
      * intros Hle. apply Hok. lia.
      * intros _ Hlt. apply Hraise; lia.
    + assert (E : (stream_setitem a None ;; rest) c = (Raise IndexError, c)).
      { unfold bind. rewrite stream_setitem_out by lia. reflexivity. }
      rewrite E. clear E. cbn [fst snd].
      exists (items (_presentation_stream c)). rewrite set_stream_id.
      repeat split; try reflexivity.
      * intros k Hk Hlt. unfold stream_len, len in Hout. lia.
      * intros; lia.
Qed.

Lemma blank_range (a b : Z) (c : t) :
  0 <= a ->
  let r := for_each (py_range a b) (fun index_char => stream_setitem index_char None) c in
  exists cells,
    snd r = set_presentation_stream (mk_deque cells (maxlen (_presentation_stream c))) c
    /\ length cells = length (items (_presentation_stream c))
    /\ (forall i, 0 <= i < stream_len c ->
        cells !! Z.to_nat i =
          if (a <=? i) && (i <? b) then Some None
          else items (_presentation_stream c) !! Z.to_nat i)
    /\ (b <= stream_len c -> fst r = Ok tt)
    /\ (a < b -> stream_len c < b -> fst r = Raise IndexError).
Proof.
  intros Ha r. subst r.
  destruct (Z_le_gt_dec b a) as [Hle|Hgt].
  - rewrite py_range_nil by lia. cbn [for_each ret fst snd].
    exists (items (_presentation_stream c)). rewrite set_stream_id.
    repeat split; try reflexivity; [|intros; lia].
    intros i Hi. destruct ((a <=? i) && (i <? b)) eqn:E; [lia | reflexivity].
  - rewrite py_range_to_nat.
    destruct (blank_cells (Z.to_nat (b - a)) a c Ha)
      as (cells & Hst & Hlen & Hin & Hout & Hok & Hraise).
    exists cells. split; [exact Hst|]. split; [exact Hlen|]. split; [|split].
    + intros i Hi. unfold stream_len, len in Hi.
      destruct ((a <=? i) && (i <? b)) eqn:E.
      * apply Hin; lia.
      * apply Hout. lia.
    + intros Hb. apply Hok. lia.
    + intros Hab Hb. apply Hraise; lia.
Qed.

(** ** A new page *)

Lemma list_mul_singleton {A} (x : A) (n : Z) :
  list_mul [x] n = replicate (Z.to_nat n) x.
Proof.
  unfold list_mul. induction (Z.to_nat n) as [|k IH]; [reflexivity|].
  cbn. rewrite IH. reflexivity.
Qed.

Lemma list_mul_replicate {A} (x : A) (m : nat) (n : Z) :
  list_mul (replicate m x) n = replicate (Z.to_nat n * m) x.
Proof.
  unfold list_mul. induction (Z.to_nat n) as [|k IH]; [reflexivity|].
  cbn [replicate concat]. rewrite IH, <- replicate_add. reflexivity.
Qed.

Lemma blank_page_replicate (c : t) :
  0 <= _width c -> 0 <= _height c ->
  blank_page c = replicate (Z.to_nat (_width c * _height c)) None.
Proof.
  intros Hw Hh. unfold blank_page. rewrite list_mul_singleton, list_mul_replicate.
  f_equal. lia.
Qed.

Lemma deque_trim_fits {A} (l : list A) (m : Z) :
  len l <= m -> deque_trim l m = l.
Proof.
  intros H. unfold deque_trim, len in *.
  replace (length l - Z.to_nat m)%nat with 0%nat by lia. reflexivity.
Qed.

Lemma length_deque_trim {A} (l : list A) (m : Z) :
  length (deque_trim l m) = Nat.min (length l) (Z.to_nat m).
Proof. unfold deque_trim. rewrite length_drop. lia. Qed.

Lemma console_reinit_ok (c : t) :
  0 < _width c -> 0 < _height c -> _width c * _height c <= _char_memory_size c ->
  console_reinit c =
    (Ok tt,
     set_end_window (_width c * _height c - 1)
       (set_start_window 0
          (set_cursor 0
             (set_presentation_stream
                (mk_deque (replicate (Z.to_nat (_width c * _height c)) None)
                   (_char_memory_size c)) c)))).
Proof.
  intros Hw Hh Hm. unfold console_reinit, bind, get, lift_outcome, deque_new.
  destruct (_char_memory_size c <? 0) eqn:E; [lia|].
  rewrite blank_page_replicate by lia.
  rewrite deque_trim_fits; [reflexivity|].
  unfold len. rewrite length_replicate. lia.
Qed.

(** A console created with positive dimensions that fit the default memory
    satisfies the invariants, and its creation raises nothing. *)
Lemma wf_init (w h ft bt : Z) :
  0 < w -> 0 < h -> w * h <= DEFAULT_CHAR_MEMORY_SIZE ->
  fst (__init__ w h ft bt) = Ok tt /\ wf (snd (__init__ w h ft bt)).
Proof.
  intros Hw Hh Hm. unfold __init__.
  rewrite list_mul_singleton, list_mul_replicate.
  rewrite deque_trim_fits by (unfold len; rewrite length_replicate; lia).
  rewrite _render_all_ok.
  - split; [reflexivity|].
    split; unfold stream_len, len; cbn -[Z.mul replicate DEFAULT_CHAR_MEMORY_SIZE];
      rewrite ?length_replicate; lia.
  - cbn. lia.
  - unfold stream_len, len. cbn -[Z.mul replicate DEFAULT_CHAR_MEMORY_SIZE].
    rewrite length_replicate. lia.
Qed.

Lemma console_2x2_fresh : __init__ 2 2 255 255 = (Ok tt, console_2x2).
Proof. reflexivity. Qed.

(** ** [clear] *)







Lemma bind_raises {S A B} (m : M S A) (k : A -> M S B) (s : S) (e : exn) :
  fst (m s) = Raise e -> fst ((x <- m ;; k x) s) = Raise e.
Proof.
  unfold bind. destruct (m s) as [[a|e'] s']; cbn; [discriminate | congruence].
Qed.

(** X1.  With the cursor beyond the end of the stream, which [line_field]
    allows, [clear("before")] raises once the existing cells are blanked. *)
Lemma clear_before_raises_past_end (c : t) :
  wf c -> stream_len c < _cursor c ->
  fst (clear (lit "before") c) = Raise IndexError.
Proof.
  intros [Hw Hh Hm Hs Hwin He Hc] Hcur.
  unfold clear.
  replace (pystr_eqb (lit "before") (lit "before")) with true by reflexivity.
  apply bind_raises.
  pose (c1 := set_log (log c ++ [DEBUG]) c).
  change (fst (for_each (py_range (_start_window c1) (_cursor c1))
                 (fun index_char => stream_setitem index_char None) c1)
          = Raise IndexError).
  destruct (blank_range (_start_window c1) (_cursor c1) c1 Hs)
    as (_ & _ & _ & _ & _ & Hraise).
  apply Hraise; unfold stream_len in *; cbn; lia.
Qed.

Lemma clear_before_raises_past_end_witness :
  let c := snd (line_field (snd (line_field (snd (line_field console_2x2))))) in
  wf c /\ stream_len c < _cursor c
  /\ fst (clear (lit "before") c) = Raise IndexError.
Proof.
  intros c.
  assert (Hwf : wf c) by (apply wf_check_sound; reflexivity).
  split; [exact Hwf|]. split; [reflexivity|].
  apply (clear_before_raises_past_end c Hwf). reflexivity.
Defined.

(** The invariants are needed: the [width] and [height] setters do not
    compare the new page with the memory, so a page larger than the memory
    can be reached through the setters, and there [clear("all")] leaves
    fewer than [width*height] cells and rendering raises. *)
Lemma width_set_can_outgrow_memory :
  let c := snd (width_set 3 (snd (memory_size_set 4 console_2x2))) in
  fst (memory_size_set 4 console_2x2) = Ok tt
  /\ fst (width_set 3 (snd (memory_size_set 4 console_2x2))) = Ok tt
  /\ _width c * _height c = 6 /\ memory_size c = 4
  /\ wf_check c = false
  /\ fst (clear (lit "all") c) = Raise IndexError
  /\ stream_len (snd (clear (lit "all") c)) = 4.
Proof. vm_compute. repeat split. Qed.

(** ** Transparency *)

Lemma font_transparency_set_state (c : t) (value : Z) :
  snd (font_transparency_set value c) =
    set_log (log c ++ [DEBUG])
      (set_font_transparency
         (if value >? 255 then 255 else if value <? 0 then 0 else value) c).
Proof.
  unfold font_transparency_set, bind, modify, log_record. cbn beta iota zeta.
  apply _render_all_state.
Qed.

Lemma background_transparency_set_state (c : t) (value : Z) :
  snd (background_transparency_set value c) =
    set_log (log c ++ [DEBUG])
      (set_background_transparency
         (if value >? 255 then 255 else if value <? 0 then 0 else value) c).
Proof.
  unfold background_transparency_set, bind, modify, log_record. cbn beta iota zeta.
  apply _render_all_state.
Qed.

(** C10.  Whatever the state, the transparency setters store 255 for an
    integer above 255, 0 for a negative one, and the integer itself when it
    lies in [0, 255]. *)
Theorem transparency_setters_clamp (c : t) (value : Z) :
  let c1 := snd (font_transparency_set value c) in
  let c2 := snd (background_transparency_set value c) in
  (255 < value -> _font_transparency c1 = 255 /\ _background_transparency c2 = 255)
  /\ (value < 0 -> _font_transparency c1 = 0 /\ _background_transparency c2 = 0)
  /\ (0 <= value <= 255 ->
      _font_transparency c1 = value /\ _background_transparency c2 = value).
Proof.
  intros c1 c2. subst c1 c2.
  rewrite font_transparency_set_state, background_transparency_set_state. cbn.
  destruct (value >? 255) eqn:E1; destruct (value <? 0) eqn:E2;
    repeat split; lia.
Qed.

Lemma transparency_setters_clamp_witness :
  _font_transparency (snd (font_transparency_set 300 console_2x2)) = 255
  /\ _background_transparency (snd (background_transparency_set (-7) console_2x2)) = 0
  /\ _font_transparency (snd (font_transparency_set 128 console_2x2)) = 128.
Proof.
  split; [|split].
  - apply (transparency_setters_clamp console_2x2 300). lia.
  - apply (transparency_setters_clamp console_2x2 (-7)). lia.
  - apply (transparency_setters_clamp console_2x2 128). lia.
Defined.

Lemma transparency_setters_ok (c : t) (value : Z) :
  0 <= _start_window c -> _end_window c < stream_len c ->
  fst (font_transparency_set value c) = Ok tt
  /\ fst (background_transparency_set value c) = Ok tt.
Proof.
  intros Hs He.
  split.
  - unfold font_transparency_set, bind, log_record, modify. cbn beta iota zeta.
    rewrite _render_all_ok; [reflexivity| |]; cbn; assumption.
  - unfold background_transparency_set, bind, log_record, modify. cbn beta iota zeta.
    rewrite _render_all_ok; [reflexivity| |]; cbn; assumption.
Qed.

(** ** [carriage_return] and [line_field] *)

Lemma carriage_return_state (c : t) :
  _width c <> 0 ->
  carriage_return c =
    (Ok tt, set_cursor (_cursor c / _width c * _width c) (set_log (log c ++ [DEBUG]) c)).
Proof.
  intros H. unfold carriage_return, bind, get, lift_outcome, floordiv.
  destruct (_width c =? 0) eqn:E; [lia|]. reflexivity.
Qed.

Lemma line_field_state (c : t) :
  _width c <> 0 ->
  line_field c =
    (Ok tt, set_cursor (_cursor c + _width c) (set_log (log c ++ [DEBUG]) c)).
Proof.
  intros H. unfold line_field, bind, get, lift_outcome, floordiv.
  destruct (_width c =? 0) eqn:E; [lia|]. reflexivity.
Qed.

(** C3, as stated, fails: at width 80 and cursor 42 the carriage return
    leaves the cursor at 0, the first column of row 0, not at 40. *)
Lemma carriage_return_42_of_80_is_not_40 :
  let c := set_cursor 42 (snd (__init__ 80 24 255 255)) in
  _width c = 80 /\ _cursor c = 42 /\ _cursor (snd (carriage_return c)) <> 40.
Proof. vm_compute. repeat split; discriminate. Qed.

(** C3, amended.  At width 80 and cursor 42, [carriage_return()] sets the
    cursor to 0 and a following [line_field()] sets it to 80; neither
    raises. *)
Theorem carriage_return_then_line_field (c : t) :
  _width c = 80 -> _cursor c = 42 ->
  let cr := carriage_return c in
  let lf := line_field (snd cr) in
  fst cr = Ok tt /\ _cursor (snd cr) = 0 /\ fst lf = Ok tt /\ _cursor (snd lf) = 80.
Proof.
  intros Hw Hc cr lf. subst cr lf.
  rewrite carriage_return_state by lia. cbn [fst snd].
  rewrite line_field_state by (cbn; lia). cbn.
  rewrite Hw, Hc. repeat split; reflexivity.
Qed.

Lemma carriage_return_then_line_field_witness :
  let c := set_cursor 42 (snd (__init__ 80 24 255 255)) in
  _cursor (snd (carriage_return c)) = 0
  /\ _cursor (snd (line_field (snd (carriage_return c)))) = 80.
Proof.
  intros c.
  destruct (carriage_return_then_line_field c) as (_ & H1 & _ & H2);
    [reflexivity | reflexivity |].
  split; [exact H1 | exact H2].
Defined.

(** ** [scroll] *)










(** C6.  On a console one column wide the test [end_window + width *
    nb_lines > len(stream)] lets the window end one cell past the stream:
    scrolling a fresh 1x2 console down by one row, with no row below the
    window, leaves [end_window] equal to the length instead of the length
    minus one, and rendering raises. *)
Theorem scroll_down_on_one_column_overshoots :
  let c := snd (__init__ 1 2 255 255) in
  let r := scroll 1 false c in
  fst (__init__ 1 2 255 255) = Ok tt
  /\ stream_len c - 1 - _end_window c < 1
  /\ fst r = Raise IndexError
  /\ _end_window (snd r) = stream_len (snd r)
  /\ _end_window (snd r) <> stream_len (snd r) - 1.
Proof. vm_compute. repeat split; discriminate. Qed.

(** ** [add_char] *)

Lemma add_line_if_needed_within (render_all : bool) (c : t) :
  _cursor c < stream_len c -> add_line_if_needed render_all c = (Ok render_all, c).
Proof.
  intros H. unfold add_line_if_needed, bind, get. cbn beta iota.
  destruct (_cursor c >=? stream_len c) eqn:E; [lia | reflexivity].
Qed.

Lemma add_line_if_needed_beyond (render_all : bool) (c : t) :
  stream_len c <= _cursor c ->
  add_line_if_needed render_all c =
    (Ok true,
     set_end_window (_end_window c + _width c)
       (set_start_window (_start_window c + _width c)
          (set_presentation_stream
             (deque_extend (_presentation_stream c) (list_mul [None] (_width c))) c))).
Proof.
  intros H. unfold add_line_if_needed, bind, get. cbn beta iota.
  destruct (_cursor c >=? stream_len c) eqn:E; [reflexivity | lia].
Qed.

Lemma full_extend_keeps_length (c : t) (l : list (option CharArgs.t)) :
  full c -> len (items (deque_extend (_presentation_stream c) l)) = stream_len c.
Proof.
  intros [H0 H]. unfold stream_len, len, deque_extend in *. cbn [items].
  rewrite length_deque_trim, length_app. lia.
Qed.

Lemma add_char_step_full (acc : bool * list Z) (single_char : Z) (c : t) :
  full c -> stream_len c <= _cursor c ->
  fst (add_char_step acc single_char c) = Raise IndexError.
Proof.
  intros Hfull Hcur. destruct acc as [render_all list_of_indexes].
  unfold add_char_step, bind at 1, get at 1. cbn beta iota.
  unfold bind at 1. rewrite add_line_if_needed_beyond by exact Hcur.
  unfold bind at 1, get at 1. cbn beta iota. unfold bind at 1.
  rewrite stream_setitem_out; [reflexivity|].
  unfold stream_len. cbn [_presentation_stream set_end_window set_start_window
                            set_presentation_stream _cursor].
  rewrite full_extend_keeps_length by exact Hfull. exact Hcur.
Qed.

Lemma add_char_step_within (acc : bool * list Z) (single_char : Z) (c : t) :
  0 <= _cursor c < stream_len c ->
  add_char_step acc single_char c =
    (Ok (fst acc, snd acc ++ [_cursor c]),
     set_cursor (_cursor c + 1)
       (set_presentation_stream
          (mk_deque
             (<[Z.to_nat (_cursor c):=Some (new_char_args [single_char] c)]>
                (items (_presentation_stream c)))
             (maxlen (_presentation_stream c))) c)).
Proof.
  intros Hcur. destruct acc as [render_all list_of_indexes].
  unfold add_char_step, bind at 1, get at 1. cbn beta iota.
  unfold bind at 1. rewrite add_line_if_needed_within by lia.
  unfold bind at 1, get at 1. cbn beta iota. unfold bind at 1.
  rewrite stream_setitem_in by exact Hcur. reflexivity.
Qed.

Lemma for_fold_overflow (chars : pystr) (acc : bool * list Z) (c : t) :
  full c -> 0 <= _cursor c <= stream_len c ->
  len chars = stream_len c - _cursor c + 1 ->
  fst (for_fold chars add_char_step acc c) = Raise IndexError.
Proof.
  revert acc c. induction chars as [|ch chars IH]; intros acc c Hfull Hcur Hlen.
  - unfold len in Hlen. cbn in Hlen. lia.
  - cbn [for_fold]. unfold bind.
    destruct (Z_lt_ge_dec (_cursor c) (stream_len c)) as [Hin|Hout].
    + rewrite add_char_step_within by lia.
      apply IH.
      * destruct Hfull as [H0 H1]. split; [exact H0|].
        unfold stream_len, len in *. cbn. rewrite length_insert. exact H1.
      * unfold stream_len, len in *. cbn. rewrite length_insert. lia.
      * unfold stream_len, len in *. cbn in *. rewrite length_insert. lia.
    + pose proof (add_char_step_full acc ch c Hfull ltac:(lia)) as H.
      destruct (add_char_step acc ch c) as [[a|e] c']; cbn in H; [discriminate|].
      cbn. exact H.
Qed.

Lemma memory_size_set_page (w h : Z) (c : t) :
  0 < w -> 0 < h -> _width c = w -> _height c = h ->
  let c' := snd (memory_size_set (w * h) c) in
  fst (memory_size_set (w * h) c) = Ok tt
  /\ memory_size c' = w * h /\ full c' /\ stream_len c' = w * h /\ _cursor c' = 0
  /\ _start_window c' = 0 /\ _end_window c' = w * h - 1
  /\ items (_presentation_stream c') = replicate (Z.to_nat (w * h)) None.
Proof.
  intros Hw Hh Ew Eh c'. subst c'. unfold memory_size_set, bind, get, modify.
  cbn beta iota. rewrite Ew, Eh.
  replace (w * h >=? w * h) with true by lia.
  rewrite console_reinit_ok by (cbn; lia).
  unfold full, memory_size, stream_len, len.
  cbn -[replicate Z.mul Z.to_nat length]. rewrite Ew, Eh, length_replicate.
  repeat split; lia.
Qed.

(** Whatever the dimensions, with a memory of one page the string of
    [width*height + 1] characters makes [add_char] raise: the bounded deque
    discards the oldest row, the cursor is not moved back with it, and the
    store at the cursor falls outside the deque. *)
Theorem one_page_memory_overflow_raises (w h : Z) (char : pystr) (c : t) :
  0 < w -> 0 < h -> _width c = w -> _height c = h ->
  len char = w * h + 1 ->
  let c' := snd (memory_size_set (w * h) c) in
  fst (add_char char c') = Raise IndexError.
Proof.
  intros Hw Hh Ew Eh Hlen c'.
  destruct (memory_size_set_page w h c Hw Hh Ew Eh)
    as (_ & _ & Hfull & Hsl & Hcur & _).
  fold c' in Hfull, Hsl, Hcur.
  unfold add_char.
  destruct (len char =? 0) eqn:E0; [nia|].
  destruct (len char =? 1) eqn:E1; [nia|].
  unfold bind at 1, log_record at 1, modify at 1. cbn beta iota.
  unfold bind at 1.
  set (c1 := set_log _ c').
  pose proof (for_fold_overflow char (false, []) c1) as H.
  assert (Hf : fst (for_fold char add_char_step (false, []) c1) = Raise IndexError).
  { apply H.
    - exact Hfull.
    - unfold c1, stream_len in *. cbn. lia.
    - unfold c1, stream_len in *. cbn. lia. }
  destruct (for_fold char add_char_step (false, []) c1) as [[a|e] c2]; cbn in Hf;
    [discriminate|]. cbn. congruence.
Qed.

Lemma one_page_memory_overflow_raises_witness :
  fst (add_char (lit "hello") (snd (memory_size_set 4 console_2x2))) = Raise IndexError.
Proof.
  apply (one_page_memory_overflow_raises 2 2 (lit "hello") console_2x2);
    reflexivity.
Defined.

(** C1.  On a 2x2 console whose memory is set to its four cells,
    [add_char("abcde")] raises [IndexError]; the stream still has four
    cells, the window has moved to [2, 5], beyond the stream, and the cursor
    stays at 4. *)
Theorem add_char_past_memory_raises :
  let c := snd (memory_size_set (2 * 2) console_2x2) in
  let r := add_char (lit "abcde") c in
  memory_size c = 4 /\ stream_len c = 4 /\ _cursor c = 0
  /\ fst r = Raise IndexError
  /\ stream_len (snd r) = 4 /\ _cursor (snd r) = 4
  /\ _start_window (snd r) = 2 /\ _end_window (snd r) = 5.
Proof. vm_compute. repeat split. Qed.

(** ** The colour setters *)

(** C4.  An integer given to the [foreground_colour] setter raises
    [TypeError], and a string that names no colour is dropped without any
    record being logged. *)
Theorem foreground_colour_set_malformed :
  (forall (c : t) (z : Z), foreground_colour_set (VInt z) c = (Raise TypeError, c))
  /\ (forall c : t, foreground_colour_set (VStr (lit "purple")) c = (Ok tt, c)).
Proof. split; intros; reflexivity. Qed.

Lemma foreground_colour_set_unknown_name (c : t) (s : pystr) :
  dict_get STANDARD_COLOURS s = None -> pystr_eqb s (lit "default") = false ->
  foreground_colour_set (VStr s) c = (Ok tt, c).
Proof. intros H1 H2. unfold foreground_colour_set. rewrite H1, H2. reflexivity. Qed.

(** A tuple of three or four integers with a component outside [0, 255],
    and a sequence of any other length, are refused with a warning and the
    state is otherwise kept. *)
Lemma foreground_colour_set_rgb_out_of_range (c : t) (r g b : Z) :
  ~ (0 <= r <= 255 /\ 0 <= g <= 255 /\ 0 <= b <= 255) ->
  foreground_colour_set (VSeq [VInt r; VInt g; VInt b]) c =
    (Ok tt, set_log (log c ++ [WARNING]) c).
Proof.
  intros H. unfold foreground_colour_set, bind, lift_outcome. cbn.
  destruct (-1 <? r) eqn:R1; destruct (r <? 256) eqn:R2; cbn; try reflexivity;
  destruct (-1 <? g) eqn:G1; destruct (g <? 256) eqn:G2; cbn; try reflexivity;
  destruct (-1 <? b) eqn:B1; destruct (b <? 256) eqn:B2; cbn; try reflexivity.
  lia.
Qed.

Lemma foreground_colour_set_rgba_out_of_range (c : t) (r g b a : Z) :
  ~ (0 <= r <= 255 /\ 0 <= g <= 255 /\ 0 <= b <= 255 /\ 0 <= a <= 255) ->
  foreground_colour_set (VSeq [VInt r; VInt g; VInt b; VInt a]) c =
    (Ok tt, set_log (log c ++ [WARNING]) c).
Proof.
  intros H. unfold foreground_colour_set, bind, lift_outcome. cbn.
  destruct (-1 <? r) eqn:R1; destruct (r <? 256) eqn:R2; cbn; try reflexivity;
  destruct (-1 <? g) eqn:G1; destruct (g <? 256) eqn:G2; cbn; try reflexivity;
  destruct (-1 <? b) eqn:B1; destruct (b <? 256) eqn:B2; cbn; try reflexivity;
  destruct (-1 <? a) eqn:A1; destruct (a <? 256) eqn:A2; cbn; try reflexivity.
  lia.
Qed.

Lemma foreground_colour_set_wrong_length (c : t) (l : list value) :
  length l <> 3%nat -> length l <> 4%nat ->
  foreground_colour_set (VSeq l) c = (Ok tt, set_log (log c ++ [WARNING]) c).
Proof.
  intros H3 H4. unfold foreground_colour_set, bind, lift_outcome. cbn [py_len].
  destruct (len l =? 4) eqn:E4; [unfold len in E4; lia|].
  destruct (len l =? 3) eqn:E3; [unfold len in E3; lia|].
  reflexivity.
Qed.

(** ** The escape decoder *)

Lemma last_csi (params : list byte) (final d : byte) :
  List.last (x1b :: x5b :: params ++ [final]) d = final.
Proof.
  change (x1b :: x5b :: params ++ [final]) with ((x1b :: x5b :: params) ++ [final]).
  apply List.last_last.
Qed.

Lemma parameter_bytes_csi (params : list byte) (final : byte) :
  RawIOConsole.parameter_bytes (x1b :: x5b :: params ++ [final]) = params.
Proof.
  unfold RawIOConsole.parameter_bytes, slice. cbn [length drop].
  rewrite length_app. cbn [length].
  replace (S (S (length params + 1)) - 1 - 2)%nat with (length params) by lia.
  apply take_app_length.
Qed.

(** A sequence [ESC [ params final] is dispatched on its final byte. *)
Lemma _esc_seq_decode_csi (py_int : list byte -> option Z) (params : list byte) (final : byte) :
  RawIOConsole._esc_seq_decode py_int (x1b :: x5b :: params ++ [final]) =
    let sequence := x1b :: x5b :: params ++ [final] in
    if RawIOConsole.FINAL_RANGE (ord final) then
      match RawIOConsole.SUPPORTED_FINAL_CTRL (ord final) with
      | Some RawIOConsole.ED => RawIOConsole.erase_in_display py_int sequence
      | Some RawIOConsole.SU => RawIOConsole.scroll_lines py_int sequence true
      | Some RawIOConsole.SD => RawIOConsole.scroll_lines py_int sequence false
      | Some RawIOConsole.SGR => RawIOConsole.select_graphic_rendition sequence
      | None => ret RawIOConsole.error
      end
    else ret RawIOConsole.incomplete.
Proof.
  unfold RawIOConsole._esc_seq_decode, RawIOConsole.last_byte. rewrite last_csi.
  assert (H0 : (len (x1b :: x5b :: params ++ [final]) =? 0) = false).
  { apply Z.eqb_neq. unfold len. cbn [length]. lia. }
  assert (H1 : (len (x1b :: x5b :: params ++ [final]) >? 1) = true).
  { apply Z.gtb_gt. unfold len. cbn [length]. lia. }
  assert (H2 : (len (x1b :: x5b :: params ++ [final]) >? 2) = true).
  { apply Z.gtb_gt. unfold len. cbn [length]. rewrite length_app. cbn [length]. lia. }
  rewrite H0, H1, H2. reflexivity.
Qed.

(** C5.  For [ESC [ params J], whatever the parameter bytes and whatever
    the integer parser: when the parameter bytes do not parse the sequence
    does what [clear("all")] does, as it does for 3; 0, 1 and 2 do what
    [clear("after")], [clear("before")] and [clear("all_without_memory")]
    do; in all these cases the result is [successful]; any other integer
    gives [error] and leaves the console as it was. *)
Theorem erase_in_display_dispatch
    (py_int : list byte -> option Z) (params : list byte) (c : Console.t) :
  let result := RawIOConsole._esc_seq_decode py_int (x1b :: x5b :: params ++ [x4a]) c in
  (py_int params = None ->
   result = (Console.clear (lit "all") ;; ret RawIOConsole.successful) c)
  /\ (py_int params = Some 0 ->
      result = (Console.clear (lit "after") ;; ret RawIOConsole.successful) c)
  /\ (py_int params = Some 1 ->
      result = (Console.clear (lit "before") ;; ret RawIOConsole.successful) c)
  /\ (py_int params = Some 2 ->
      result = (Console.clear (lit "all_without_memory") ;; ret RawIOConsole.successful) c)
  /\ (py_int params = Some 3 ->
      result = (Console.clear (lit "all") ;; ret RawIOConsole.successful) c)
  /\ (forall n, py_int params = Some n -> n < 0 \/ 3 < n ->
      result = (Ok RawIOConsole.error, c)).
Proof.
  intros result. subst result. rewrite _esc_seq_decode_csi.
  change (RawIOConsole.FINAL_RANGE (ord x4a)) with true.
  change (RawIOConsole.SUPPORTED_FINAL_CTRL (ord x4a)) with (Some RawIOConsole.ED).
  cbv beta iota zeta. unfold RawIOConsole.erase_in_display.
  rewrite parameter_bytes_csi.
  repeat split.
  - intros ->. reflexivity.
  - intros ->. reflexivity.
  - intros ->. reflexivity.
  - intros ->. reflexivity.
  - intros ->. reflexivity.
  - intros n -> Hn.
    destruct (n =? 0) eqn:E0; [lia|]. destruct (n =? 1) eqn:E1; [lia|].
    destruct (n =? 2) eqn:E2; [lia|]. destruct (n =? 3) eqn:E3; [lia|].
    reflexivity.
Qed.

Lemma erase_in_display_dispatch_witness :
  RawIOConsole._esc_seq_decode int_of_digits [x1b; x5b; x4a] console_2x2 =
    (Console.clear (lit "all") ;; ret RawIOConsole.successful) console_2x2
  /\ RawIOConsole._esc_seq_decode int_of_digits [x1b; x5b; x30; x4a] console_2x2 =
    (Console.clear (lit "after") ;; ret RawIOConsole.successful) console_2x2
  /\ RawIOConsole._esc_seq_decode int_of_digits [x1b; x5b; x31; x4a] console_2x2 =
    (Console.clear (lit "before") ;; ret RawIOConsole.successful) console_2x2
  /\ RawIOConsole._esc_seq_decode int_of_digits [x1b; x5b; x32; x4a] console_2x2 =
    (Console.clear (lit "all_without_memory") ;; ret RawIOConsole.successful) console_2x2
  /\ RawIOConsole._esc_seq_decode int_of_digits [x1b; x5b; x33; x4a] console_2x2 =
    (Console.clear (lit "all") ;; ret RawIOConsole.successful) console_2x2
  /\ RawIOConsole._esc_seq_decode int_of_digits [x1b; x5b; x37; x4a] console_2x2 =
    (Ok RawIOConsole.error, console_2x2).
Proof.
  split; [|split; [|split; [|split; [|split]]]].
  - destruct (erase_in_display_dispatch int_of_digits [] console_2x2) as (H & _).
    apply H. reflexivity.
  - destruct (erase_in_display_dispatch int_of_digits [x30] console_2x2) as (_ & H & _).
    apply H. reflexivity.
  - destruct (erase_in_display_dispatch int_of_digits [x31] console_2x2)
      as (_ & _ & H & _).
    apply H. reflexivity.
  - destruct (erase_in_display_dispatch int_of_digits [x32] console_2x2)
      as (_ & _ & _ & H & _).
    apply H. reflexivity.
  - destruct (erase_in_display_dispatch int_of_digits [x33] console_2x2)
      as (_ & _ & _ & _ & H & _).
    apply H. reflexivity.
  - destruct (erase_in_display_dispatch int_of_digits [x37] console_2x2)
      as (_ & _ & _ & _ & _ & H).
    apply (H 7); [reflexivity | lia].
Defined.

(** C2.  [ESC [ m] without parameter bytes is accepted and changes nothing
    on the console: the parameter text splits into one empty
    sub-parameter, which no table holds. *)
Theorem sgr_without_parameter_changes_nothing
    (py_int : list byte -> option Z) (c : Console.t) :
  RawIOConsole.write py_int [x1b; x5b; x6d] (RawIOConsole.__init__ c) =
    (Ok 3, RawIOConsole.mk c [] [] [DEBUG]).
Proof. reflexivity. Qed.

Lemma sgr_without_parameter_keeps_bold (py_int : list byte -> option Z) :
  let c := set_bold true console_2x2 in
  let r := RawIOConsole.write py_int [x1b; x5b; x6d] (RawIOConsole.__init__ c) in
  Console.bold (RawIOConsole._console (snd r)) = true.
Proof. reflexivity. Qed.

(** X5.  [ESC [ 0 m] written to a new stream object is accepted whole and
    resets the pen: bold, italic and underline are off, and both colours
    are the default ones with the stored transparencies as alpha. *)
Lemma sgr_0_resets (py_int : list byte -> option Z) (c : Console.t) :
  let r := RawIOConsole.write py_int [x1b; x5b; x30; x6d] (RawIOConsole.__init__ c) in
  let c' := RawIOConsole._console (snd r) in
  fst r = Ok 4
  /\ Console.bold c' = false /\ Console.italic c' = false /\ Console.underline c' = false
  /\ Console.foreground_colour c' =
       _replace_alpha (_default_foreground_colour c) (Console.font_transparency c)
  /\ Console.background_colour c' =
       _replace_alpha (_default_background_colour c) (Console.background_transparency c).
Proof. cbv zeta. repeat split; reflexivity. Qed.

(** ** [write] and UTF-8 *)

Lemma utf8_cons_inr ch r e : utf8_cons ch r = inr e -> r = inr e.
Proof. destruct r; cbn; congruence. Qed.

Lemma utf8_cons_inl ch r s : utf8_cons ch r = inl s -> exists s', r = inl s' /\ s = ch :: s'.
Proof. destruct r; cbn; intros H; inversion H; eauto. Qed.

(** The offset reported lies inside the buffer. *)
Lemma utf8_error_offset (pos : nat) (bs : list byte) (e : nat) :
  utf8_decode_at pos bs = inr e -> (pos <= e < pos + length bs)%nat.
Proof.
  functional induction (utf8_decode_at pos bs); intros H;
    try discriminate;
    try (apply utf8_cons_inr in H; specialize (IHs H); cbn [length]; lia);
    try (inversion H; subst; cbn [length]; lia).
Qed.

Ltac use_tests :=
  repeat match goal with
         | H : _ = true |- _ => rewrite H
         | H : _ = false |- _ => rewrite H
         end.

Ltac decode_head :=
  rewrite utf8_decode_at_equation; cbv zeta; use_tests.

(** What precedes the reported offset decodes. *)
Lemma utf8_prefix_decodes (pos : nat) (bs : list byte) (e : nat) :
  utf8_decode_at pos bs = inr e ->
  exists s, utf8_decode_at pos (take (e - pos) bs) = inl s.
Proof.
  functional induction (utf8_decode_at pos bs); intros H;
    try discriminate;
    try (inversion H; subst; rewrite Nat.sub_diag; cbn; eauto; fail).
  - apply utf8_cons_inr in H. pose proof (utf8_error_offset _ _ _ H) as Hoff.
    destruct (IHs H) as [s Hs].
    replace (e - pos)%nat with (S (e - (1 + pos))) by lia. cbn [take].
    decode_head. rewrite Hs. cbn. eauto.
  - apply utf8_cons_inr in H. pose proof (utf8_error_offset _ _ _ H) as Hoff.
    destruct (IHs H) as [s Hs].
    replace (e - pos)%nat with (S (S (e - (2 + pos)))) by lia. cbn [take].
    decode_head. rewrite Hs. cbn. eauto.
  - apply utf8_cons_inr in H. pose proof (utf8_error_offset _ _ _ H) as Hoff.
    destruct (IHs H) as [s Hs].
    replace (e - pos)%nat with (S (S (S (e - (3 + pos))))) by lia. cbn [take].
    decode_head. rewrite Hs. cbn. eauto.
  - apply utf8_cons_inr in H. pose proof (utf8_error_offset _ _ _ H) as Hoff.
    destruct (IHs H) as [s Hs].
    replace (e - pos)%nat with (S (S (S (S (e - (4 + pos)))))) by lia. cbn [take].
    decode_head. rewrite Hs. cbn. eauto.
Qed.

(** A longer prefix stops at the same offset. *)
Lemma utf8_longer_prefix_fails (pos : nat) (bs : list byte) (e : nat) :
  utf8_decode_at pos bs = inr e ->
  forall n, (e - pos < n)%nat -> utf8_decode_at pos (take n bs) = inr e.
Proof.
  functional induction (utf8_decode_at pos bs); intros H n Hn;
    try discriminate.
  - apply utf8_cons_inr in H. pose proof (utf8_error_offset _ _ _ H) as Hoff.
    destruct n as [|n]; [lia|]. cbn [take].
    decode_head. rewrite (IHs H n) by lia. reflexivity.
  - inversion H; subst e. destruct n as [|n]; [lia|]. cbn [take].
    decode_head. reflexivity.
  - apply utf8_cons_inr in H. pose proof (utf8_error_offset _ _ _ H) as Hoff.
    destruct n as [|[|n]]; [lia|lia|]. cbn [take].
    decode_head. rewrite (IHs H n) by lia. reflexivity.
  - inversion H; subst e. destruct n as [|[|n]]; [lia| |]; cbn [take];
      decode_head; reflexivity.
  - inversion H; subst e. destruct r1; [|contradiction].
    destruct n as [|n]; [lia|]. cbn [take]. rewrite take_nil.
    decode_head. reflexivity.
  - apply utf8_cons_inr in H. pose proof (utf8_error_offset _ _ _ H) as Hoff.
    destruct n as [|[|[|n]]]; [lia|lia|lia|]. cbn [take].
    decode_head. rewrite (IHs H n) by lia. reflexivity.
  - inversion H; subst e. destruct n as [|[|[|n]]]; [lia| | |]; cbn [take];
      decode_head; reflexivity.
  - inversion H; subst e.
    destruct r1 as [|b2 [|b3 r3]]; [| |contradiction];
      destruct n as [|[|n]]; try lia; cbn [take]; rewrite ?take_nil;
      decode_head; reflexivity.
  - apply utf8_cons_inr in H. pose proof (utf8_error_offset _ _ _ H) as Hoff.
    destruct n as [|[|[|[|n]]]]; [lia|lia|lia|lia|]. cbn [take].
    decode_head. rewrite (IHs H n) by lia. reflexivity.
  - inversion H; subst e. destruct n as [|[|[|[|n]]]]; [lia| | | |]; cbn [take];
      decode_head; reflexivity.
  - inversion H; subst e.
    destruct r1 as [|b2 [|b3 [|b4 r4]]]; [| | |contradiction];
      destruct n as [|[|[|n]]]; try lia; cbn [take]; rewrite ?take_nil;
      decode_head; reflexivity.
  - inversion H; subst e. destruct n as [|n]; [lia|]. cbn [take].
    decode_head. reflexivity.
Qed.

Lemma utf8_check_truncates (bs : list byte) (e : nat) :
  utf8_decode bs = inr e ->
  RawIOConsole.utf8_check bs = take e bs
  /\ length (RawIOConsole.utf8_check bs) = e /\ (e < length bs)%nat.
Proof.
  intros H. unfold RawIOConsole.utf8_check. rewrite H.
  apply utf8_error_offset in H. rewrite length_take.
  split; [reflexivity | lia].
Qed.

(** X6.  The bytes [write] keeps are the longest prefix of the buffer that is
    well-formed UTF-8. *)
Lemma utf8_check_longest_prefix (bs : list byte) :
  let kept := RawIOConsole.utf8_check bs in
  kept = take (length kept) bs
  /\ decodes kept
  /\ forall n, (n <= length bs)%nat -> decodes (take n bs) -> (n <= length kept)%nat.
Proof.
  intros kept. subst kept. unfold decodes.
  destruct (utf8_decode bs) as [s|e] eqn:E.
  - unfold RawIOConsole.utf8_check. rewrite E.
    split; [rewrite firstn_all; reflexivity|]. split; [eauto|]. intros n Hn _. exact Hn.
  - destruct (utf8_check_truncates bs e E) as (-> & Hlen & Hlt).
    split; [rewrite Hlen; reflexivity|]. split.
    + destruct (utf8_prefix_decodes 0 bs e E) as [s Hs].
      rewrite Nat.sub_0_r in Hs. exists s. exact Hs.
    + intros n Hn [s Hs]. rewrite Hlen.
      destruct (le_lt_dec n e) as [Hle|Hgt]; [exact Hle|].
      unfold utf8_decode in *.
      rewrite (utf8_longer_prefix_fails 0 bs e E n) in Hs by lia. discriminate.
Qed.

(** When [write] returns, it returns the length of that prefix. *)
Lemma write_returns_kept_length
    (py_int : list byte -> option Z) (bs : list byte) (s s' : RawIOConsole.t) (n : Z) :
  RawIOConsole.write py_int bs s = (Ok n, s') -> n = len (RawIOConsole.utf8_check bs).
Proof.
  unfold RawIOConsole.write, bind.
  destruct (for_each _ _ s) as [[[]|e] s1]; [|discriminate].
  destruct (RawIOConsole.flush_displaying_char s1) as [[[]|e] s2]; [|discriminate].
  unfold ret. intros H. inversion H. reflexivity.
Qed.

(** A buffer that ends inside a two-byte character: two bytes are kept. *)
Lemma write_truncated_character (py_int : list byte -> option Z) :
  fst (RawIOConsole.write py_int [x61; x62; xc3] (RawIOConsole.__init__ console_2x2)) = Ok 2.
Proof. reflexivity. Qed.

(** C8.  The three bytes [ESC 0xC3 0xA9] are well-formed UTF-8, the escape
    character followed by U+00E9.  [write] refuses [ESC 0xC3] as an escape
    sequence, takes the continuation byte 0xA9 alone for displayable text,
    and raises [UnicodeDecodeError] when it decodes it; the byte stays in
    the buffer of the stream object. *)
Theorem write_raises_on_escape_then_multibyte
    (py_int : list byte -> option Z) (c : Console.t) :
  utf8_decode [x1b; xc3; xa9] = inl [27; 233]
  /\ RawIOConsole.write py_int [x1b; xc3; xa9] (RawIOConsole.__init__ c) =
       (Raise UnicodeDecodeError, RawIOConsole.mk c [] [xa9] [WARNING]).
Proof. split; reflexivity. Qed.

(** ** Further properties of [scroll] *)

(** X7.  Whatever the state, the arguments and the outcome, [scroll] touches
    only the window (and the log), and leaves a window of exactly one
    page. *)
Theorem scroll_frame (c : t) (nb_lines : Z) (up : bool) :
  let c' := snd (scroll nb_lines up c) in
  _presentation_stream c' = _presentation_stream c
  /\ _cursor c' = _cursor c
  /\ _width c' = _width c /\ _height c' = _height c
  /\ _char_memory_size c' = _char_memory_size c
  /\ _end_window c' - _start_window c' = _width c * _height c - 1.
Proof.
  intros c'. subst c'. unfold scroll. rewrite then_render_all_state.
  destruct up.
  - unfold bind, get, log_record, modify. cbn beta iota.
    destruct (_ <? 0); cbn; repeat split; lia.
  - unfold bind, get, log_record, modify. cbn beta iota.
    destruct (_ >? _); cbn; repeat split; lia.
Qed.



(** ** Further properties of [clear] *)

Lemma wf_blank_range (a b : Z) (c : t) :
  wf c -> 0 <= a ->
  wf (snd (for_each (py_range a b)
             (fun index_char => stream_setitem index_char None) c)).
Proof.
  intros [Hw Hh Hm Hs Hwin He Hc] Ha.
  destruct (blank_range a b c Ha) as (cells & Hst & Hlen & _).
  rewrite Hst. split; unfold stream_len, len in *; cbn; rewrite ?Hlen; assumption.
Qed.

Lemma wf_set_log (c : t) (l : list levelname) : wf c -> wf (set_log l c).
Proof. intros [Hw Hh Hm Hs Hwin He Hc]. split; assumption. Qed.

(** X9.  Every mode of [clear], the unknown ones included, keeps the
    invariants, whether or not the call raises. *)
Theorem clear_keeps_invariants (c : t) (mode : pystr) :
  wf c -> wf (snd (clear mode c)).
Proof.
  intros Hwf. unfold clear. rewrite then_render_all_state.
  pose proof (wf_set_log c (log c ++ [DEBUG]) Hwf) as Hwf1.
  destruct (pystr_eqb mode (lit "before")); [|destruct (pystr_eqb mode (lit "after"));
    [|destruct (pystr_eqb mode (lit "all_without_memory"))]].
  - apply (wf_blank_range _ _ _ Hwf1). apply Hwf.
  - apply (wf_blank_range _ _ _ Hwf1). apply Hwf.
  - apply (wf_blank_range _ _ _ Hwf1). apply Hwf.
  - change (wf (snd (console_reinit (set_log (log c ++ [DEBUG]) c)))).
    destruct Hwf1 as [Hw Hh Hm Hs Hwin He Hc].
    rewrite console_reinit_ok by assumption.
    split; unfold stream_len, len; cbn -[Z.mul replicate];
      rewrite ?length_replicate; cbn in *; nia.
Qed.

Lemma clear_keeps_invariants_witness :
  wf console_hi
  /\ wf (snd (clear (lit "before") console_hi))
  /\ wf (snd (clear (lit "sideways") console_hi)).
Proof.
  assert (Hwf : wf console_hi) by (apply wf_check_sound; reflexivity).
  split; [exact Hwf|]. split.
  - apply (clear_keeps_invariants console_hi (lit "before") Hwf).
  - apply (clear_keeps_invariants console_hi (lit "sideways") Hwf).
Defined.

(** ** Further properties of [carriage_return] and [line_field] *)

(** X10.  On a console of positive width: the carriage return puts the cursor on
    the first column of the row it is in, a second one changes nothing
    more, the line feed adds exactly one row, and the two commute. *)
Theorem carriage_return_line_field_cursor (c : t) :
  0 < _width c ->
  let cr := snd (carriage_return c) in
  let lf := snd (line_field c) in
  fst (carriage_return c) = Ok tt /\ fst (line_field c) = Ok tt
  /\ (_width c | _cursor cr)
  /\ _cursor cr <= _cursor c < _cursor cr + _width c
  /\ _cursor (snd (carriage_return cr)) = _cursor cr
  /\ _cursor lf = _cursor c + _width c
  /\ _cursor (snd (carriage_return lf)) = _cursor (snd (line_field cr)).
Proof.
  intros Hw cr lf. subst cr lf.
  rewrite carriage_return_state, line_field_state by lia. cbn [fst snd].
  rewrite !carriage_return_state, line_field_state by (cbn; lia). cbn.
  pose proof (Z.mul_div_le (_cursor c) (_width c) Hw) as H1.
  pose proof (Z.mul_succ_div_gt (_cursor c) (_width c) Hw) as H2.
  repeat split; try lia.
  - exists (_cursor c / _width c). reflexivity.
  - rewrite Z.div_mul by lia. reflexivity.
  - replace (_cursor c + _width c) with (_cursor c + 1 * _width c) by lia.
    rewrite Z.div_add by lia. lia.
Qed.

Lemma carriage_return_line_field_cursor_witness :
  _cursor console_hello = 5
  /\ _cursor (snd (carriage_return console_hello)) = 4
  /\ _cursor (snd (line_field console_hello)) = 7
  /\ _cursor (snd (carriage_return (snd (line_field console_hello)))) = 6.
Proof.
  destruct (carriage_return_line_field_cursor console_hello) as (_ & _ & _ & _ & _ & H & _);
    [reflexivity|].
  split; [reflexivity|]. split; [reflexivity|]. split; [exact H | reflexivity].
Defined.

Lemma add_char_step_grow (acc : bool * list Z) (ch : Z) (c : t) :
  0 <= _width c -> _cursor c = stream_len c ->
  0 < _width c ->
  stream_len c + _width c <= maxlen (_presentation_stream c) ->
  add_char_step acc ch c =
    (Ok (true, snd acc ++ [_cursor c]),
     set_cursor (_cursor c + 1)
       (set_presentation_stream
          (mk_deque
             (<[Z.to_nat (_cursor c):=cell_of c ch]>
                (items (_presentation_stream c) ++ replicate (Z.to_nat (_width c)) None))
             (maxlen (_presentation_stream c)))
          (set_end_window (_end_window c + _width c)
             (set_start_window (_start_window c + _width c) c)))).
Proof.
  intros Hw0 Hcur Hw Hmem. destruct acc as [render_all list_of_indexes].
  unfold add_char_step, bind at 1, get at 1. cbn beta iota.
  unfold bind at 1. rewrite add_line_if_needed_beyond by lia.
  unfold bind at 1, get at 1. cbn beta iota. unfold bind at 1.
  assert (E : deque_extend (_presentation_stream c) (list_mul [None] (_width c)) =
              mk_deque (items (_presentation_stream c) ++ replicate (Z.to_nat (_width c)) None)
                (maxlen (_presentation_stream c))).
  { unfold deque_extend. rewrite list_mul_singleton. f_equal.
    apply deque_trim_fits. unfold stream_len, len in *.
    rewrite length_app, length_replicate. lia. }
  rewrite E. rewrite stream_setitem_in.
  - reflexivity.
  - unfold stream_len, len in *. cbn. rewrite length_app, length_replicate. lia.
Qed.

Lemma put_char_within (ch : Z) (c : t) :
  0 <= _cursor c < stream_len c ->
  put_char ch c =
    set_cursor (_cursor c + 1)
      (set_presentation_stream
         (mk_deque
            (<[Z.to_nat (_cursor c):=cell_of c ch]> (items (_presentation_stream c)))
            (maxlen (_presentation_stream c))) c).
Proof. intros H. unfold put_char. rewrite add_char_step_within by exact H. reflexivity. Qed.

Lemma put_char_grow (ch : Z) (c : t) :
  _cursor c = stream_len c -> 0 < _width c ->
  stream_len c + _width c <= maxlen (_presentation_stream c) ->
  put_char ch c =
    set_cursor (_cursor c + 1)
      (set_presentation_stream
         (mk_deque
            (<[Z.to_nat (_cursor c):=cell_of c ch]>
               (items (_presentation_stream c) ++ replicate (Z.to_nat (_width c)) None))
            (maxlen (_presentation_stream c)))
         (set_end_window (_end_window c + _width c)
            (set_start_window (_start_window c + _width c) c))).
Proof.
  intros H1 H2 H3. unfold put_char. rewrite add_char_step_grow by lia. reflexivity.
Qed.

(** One step under [room]: it succeeds, reaches [put_char], records the
    cursor it wrote at, and leaves room for the rest. *)
Lemma add_char_step_room (acc : bool * list Z) (ch : Z) (c : t) (n k : Z) :
  room c n k -> 1 <= n ->
  (exists render_all,
      add_char_step acc ch c = (Ok (render_all, snd acc ++ [_cursor c]), put_char ch c))
  /\ (exists k', room (put_char ch c) (n - 1) k')
  /\ _cursor (put_char ch c) = _cursor c + 1
  /\ stream_len c <= stream_len (put_char ch c).
Proof.
  intros [[Hw Hh Hm Hs Hwin He Hc] Hcur Hk Htext Hmem] Hn.
  destruct (Z_lt_ge_dec (_cursor c) (stream_len c)) as [Hin|Hout].
  - rewrite put_char_within by lia. rewrite add_char_step_within by lia.
    split; [eauto|]. split; [|split].
    + exists k. split; [split| | | |]; unfold stream_len, len in *; cbn;
        rewrite ?length_insert; lia.
    + reflexivity.
    + unfold stream_len, len. cbn. rewrite length_insert. lia.
  - assert (Hk1 : 1 <= k) by nia.
    assert (Hroom : stream_len c + _width c <= maxlen (_presentation_stream c)) by nia.
    rewrite put_char_grow by lia. rewrite add_char_step_grow by lia.
    split; [eauto|]. split; [|split].
    + exists (k - 1). split; [split| | | |]; unfold stream_len, len in *; cbn;
        rewrite ?length_insert, ?length_app, ?length_replicate; nia.
    + reflexivity.
    + unfold stream_len, len. cbn. rewrite length_insert, length_app. lia.
Qed.

Lemma room_set_log (c : t) (l : list levelname) (n k : Z) :
  room c n k -> room (set_log l c) n k.
Proof.
  intros [Hwf Hcur Hk Htext Hmem]. split; try assumption. apply wf_set_log. exact Hwf.
Qed.

Lemma put_char_set_log (ch : Z) (c : t) (l : list levelname) (n k : Z) :
  room c n k -> 1 <= n ->
  put_char ch (set_log l c) = set_log l (put_char ch c).
Proof.
  intros Hroom Hn. pose proof Hroom as [[Hw Hh Hm Hs Hwin He Hc] Hcur Hk Htext Hmem].
  destruct (Z_lt_ge_dec (_cursor c) (stream_len c)) as [Hin|Hout].
  - rewrite !put_char_within by (unfold stream_len in *; cbn; lia). reflexivity.
  - assert (Hk1 : 1 <= k) by nia.
    rewrite !put_char_grow by (unfold stream_len in *; cbn; nia). reflexivity.
Qed.

Lemma render_chars_ok (l : list Z) (c : t) :
  Forall (fun i => 0 <= i < stream_len c) l -> _render_chars l c = (Ok tt, c).
Proof.
  unfold _render_chars. induction 1 as [|i l Hi Hl IH]; [reflexivity|].
  cbn [for_each]. unfold bind at 1, _render_char at 1, bind at 1.
  destruct (stream_getitem_in c i Hi) as [x ->]. cbn. exact IH.
Qed.

(** The loop of [add_char] under [room]. *)
Lemma for_fold_room (chars : pystr) (acc : bool * list Z) (c : t) (k : Z) :
  room c (len chars) k ->
  exists render_all indexes,
    for_fold chars add_char_step acc c =
      (Ok (render_all, snd acc ++ indexes), put_chars chars c)
    /\ Forall (fun i => _cursor c <= i < _cursor c + len chars) indexes
    /\ (exists k', room (put_chars chars c) 0 k')
    /\ _cursor (put_chars chars c) = _cursor c + len chars
    /\ stream_len c <= stream_len (put_chars chars c).
Proof.
  revert acc c k. induction chars as [|ch chars IH]; intros acc c k Hroom.
  - exists (fst acc), []. cbn [for_fold put_chars fold_left]. rewrite app_nil_r.
    destruct acc as [ra idx]. cbn [fst snd].
    split; [reflexivity|]. split; [apply Forall_nil_2|].
    split; [exists k; exact Hroom|]. split; [unfold len; cbn; lia | lia].
  - assert (Hlen : len (ch :: chars) = len chars + 1) by (unfold len; cbn [length]; lia).
    rewrite Hlen in *.
    destruct (add_char_step_room acc ch c _ k Hroom ltac:(unfold len; lia))
      as ([ra Hstep] & [k' Hroom'] & Hcur & Hlen').
    replace (len chars + 1 - 1) with (len chars) in Hroom' by lia.
    destruct (IH (ra, snd acc ++ [_cursor c]) (put_char ch c) k' Hroom')
      as (ra' & indexes & Hfold & Hall & Hroom'' & Hcur' & Hlen'').
    exists ra', (_cursor c :: indexes).
    cbn [for_fold]. unfold bind. rewrite Hstep. cbn [snd] in Hfold.
    rewrite Hfold. cbn [put_chars fold_left].
    split; [rewrite <- app_assoc; reflexivity|].
    split; [|split; [|split]].
    + constructor; [unfold len; lia|].
      eapply Forall_impl; [exact Hall|]. intros i Hi. cbn in Hi. lia.
    + exact Hroom''.
    + unfold put_chars in Hcur'. rewrite Hcur', Hcur. lia.
    + unfold put_chars in Hlen''. lia.
Qed.

(** A call with one character under [room]. *)
Lemma add_char_single_room (ch : Z) (c : t) (k : Z) :
  room c 1 k ->
  add_char [ch] c = (Ok tt, set_log (log c ++ [DEBUG]) (put_char ch c)).
Proof.
  intros Hroom.
  rewrite <- (put_char_set_log ch c (log c ++ [DEBUG]) 1 k Hroom ltac:(lia)).
  apply (room_set_log c (log c ++ [DEBUG])) in Hroom.
  unfold add_char.
  change (len [ch] =? 0) with false. change (len [ch] =? 1) with true. cbv iota.
  unfold bind at 1, log_record at 1, modify at 1. cbn beta iota.
  generalize dependent (set_log (log c ++ [DEBUG]) c). clear c. intros c Hroom.
  pose proof Hroom as [[Hw Hh Hm Hs Hwin He Hc] Hcur Hk Htext Hmem].
  unfold bind at 1, get at 1. cbn beta iota. unfold bind at 1.
  destruct (Z_lt_ge_dec (_cursor c) (stream_len c)) as [Hin|Hout].
  - rewrite add_line_if_needed_within by lia.
    unfold bind at 1, get at 1. cbn beta iota. unfold bind at 1.
    rewrite stream_setitem_in by lia.
    unfold bind at 1, _render_char, bind at 1.
    match goal with |- context [stream_getitem ?i ?s] =>
      destruct (stream_getitem_in s i) as [x ->] end.
    { unfold stream_len, len in *. cbn. rewrite length_insert. lia. }
    rewrite put_char_within by lia.
    reflexivity.
  - assert (Hk1 : 1 <= k) by nia.
    rewrite add_line_if_needed_beyond by lia.
    unfold bind at 1, get at 1. cbn beta iota. unfold bind at 1.
    assert (E : deque_extend (_presentation_stream c) (list_mul [None] (_width c)) =
              mk_deque (items (_presentation_stream c)
                          ++ replicate (Z.to_nat (_width c)) None)
                (maxlen (_presentation_stream c))).
    { unfold deque_extend. rewrite list_mul_singleton. f_equal.
      apply deque_trim_fits. unfold stream_len, len in *.
      rewrite length_app, length_replicate. nia. }
    rewrite E. rewrite stream_setitem_in.
    2:{ unfold stream_len, len in *. cbn. rewrite length_app, length_replicate. lia. }
    unfold bind at 1. rewrite _render_all_ok.
    2:{ cbn. lia. }
    2:{ unfold stream_len, len in *. cbn.
        rewrite length_insert, length_app, length_replicate. lia. }
    rewrite put_char_grow by nia.
    reflexivity.
Qed.

Lemma len_cons {A} (x : A) (l : list A) : len (x :: l) = len l + 1.
Proof. unfold len. cbn [length]. lia. Qed.

Lemma put_chars_set_log (chars : pystr) (c : t) (l : list levelname) (k : Z) :
  room c (len chars) k ->
  put_chars chars (set_log l c) = set_log l (put_chars chars c).
Proof.
  revert c k. induction chars as [|ch chars IH]; intros c k Hroom; [reflexivity|].
  rewrite len_cons in Hroom. cbn [put_chars fold_left].
  rewrite (put_char_set_log ch c l _ k Hroom) by (unfold len; lia).
  destruct (add_char_step_room (false, []) ch c _ k Hroom ltac:(unfold len; lia))
    as (_ & [k' Hroom'] & _).
  replace (len chars + 1 - 1) with (len chars) in Hroom' by lia.
  apply (IH _ k' Hroom').
Qed.

(** [add_char] under [room]: no exception, and the state of [put_chars]. *)
Lemma add_char_room (chars : pystr) (c : t) (k : Z) :
  room c (len chars) k ->
  add_char chars c = (Ok tt, set_log (log c ++ [DEBUG]) (put_chars chars c)).
Proof.
  intros Hroom.
  destruct chars as [|ch1 [|ch2 chars]].
  - reflexivity.
  - apply (add_char_single_room ch1 c k Hroom).
  - set (text := ch1 :: ch2 :: chars) in *.
    rewrite <- (put_chars_set_log text c (log c ++ [DEBUG]) k Hroom).
    apply (room_set_log c (log c ++ [DEBUG])) in Hroom.
    unfold add_char.
    assert (Hlen2 : 2 <= len text) by (unfold text, len; cbn [length]; lia).
    destruct (len text =? 0) eqn:E0; [lia|].
    destruct (len text =? 1) eqn:E1; [lia|].
    unfold bind at 1, log_record at 1, modify at 1. cbn beta iota.
    generalize dependent (set_log (log c ++ [DEBUG]) c). clear c. intros c Hroom.
    destruct (for_fold_room text (false, []) c k Hroom)
      as (ra & indexes & Hfold & Hall & [k' Hroom'] & Hcur & Hlen).
    unfold bind. rewrite Hfold. cbn [snd app].
    destruct Hroom' as [[Hw Hh Hm Hs Hwin He Hc] Hcur' Hk Htext Hmem].
    destruct Hroom as [[_ _ _ _ _ _ Hc0] _ _ _ _].
    destruct ra.
    + apply _render_all_ok; assumption.
    + apply render_chars_ok. eapply Forall_impl; [exact Hall|].
      intros i Hi. cbn in Hi. lia.
Qed.

Lemma same_data_set_log (c : t) (l : list levelname) : same_data (set_log l c) c.
Proof. reflexivity. Qed.

(** One call per character under [room]. *)
Lemma add_char_each_room (chars : pystr) (c : t) (k : Z) :
  room c (len chars) k ->
  exists c', for_each (map (fun ch => [ch]) chars) add_char c = (Ok tt, c')
             /\ same_data c' (put_chars chars c).
Proof.
  revert c k. induction chars as [|ch chars IH]; intros c k Hroom.
  - exists c. split; reflexivity.
  - rewrite len_cons in Hroom.
    assert (Hroom1 : room c 1 k).
    { destruct Hroom as [Hwf Hcur Hk Htext Hmem]. split; try assumption.
      unfold len in Htext. lia. }
    destruct (add_char_step_room (false, []) ch c _ k Hroom ltac:(unfold len; lia))
      as (_ & [k' Hroom'] & _).
    replace (len chars + 1 - 1) with (len chars) in Hroom' by lia.
    cbn [map for_each]. unfold bind. rewrite (add_char_single_room ch c k Hroom1).
    destruct (IH (set_log (log c ++ [DEBUG]) (put_char ch c)) k'
                (room_set_log _ _ _ _ Hroom')) as (c' & Hrun & Hsame).
    exists c'. split; [exact Hrun|].
    unfold same_data in *. rewrite Hsame.
    rewrite (put_chars_set_log chars _ _ k' Hroom'). reflexivity.
Qed.

Lemma add_char_room_as_characters (chars : pystr) (c : t) (k : Z) :
  room c (len chars) k ->
  fst (add_char chars c) = Ok tt
  /\ fst (for_each (map (fun ch => [ch]) chars) add_char c) = Ok tt
  /\ same_data (snd (add_char chars c))
       (snd (for_each (map (fun ch => [ch]) chars) add_char c)).
Proof.
  intros Hroom. rewrite (add_char_room chars c k Hroom).
  destruct (add_char_each_room chars c k Hroom) as (c' & -> & Hsame).
  cbn [fst snd]. split; [reflexivity|]. split; [reflexivity|].
  unfold same_data in *. rewrite Hsame. reflexivity.
Qed.

(** What a step keeps: everything but the stream, the cursor and the window. *)
Lemma put_char_frame (ch : Z) (c : t) (n k : Z) :
  room c n k -> 1 <= n ->
  _width (put_char ch c) = _width c
  /\ (forall ch', cell_of (put_char ch c) ch' = cell_of c ch')
  /\ maxlen (_presentation_stream (put_char ch c)) = maxlen (_presentation_stream c).
Proof.
  intros [[Hw Hh Hm Hs Hwin He Hc] Hcur Hk Htext Hmem] Hn.
  destruct (Z_lt_ge_dec (_cursor c) (stream_len c)) as [Hin|Hout].
  - rewrite put_char_within by lia. repeat split.
  - assert (Hk1 : 1 <= k) by nia.
    rewrite put_char_grow; [repeat split | lia | lia | nia].
Qed.

Lemma put_chars_cells (chars : pystr) (c : t) (k : Z) :
  room c (len chars) k ->
  let c' := put_chars chars c in
  exists r,
    0 <= r
    /\ _cursor c + len chars <= stream_len c + _width c * r
    /\ (0 < r -> stream_len c + _width c * (r - 1) < _cursor c + len chars)
    /\ items (_presentation_stream c') =
         list_inserts (Z.to_nat (_cursor c)) (map (cell_of c) chars)
           (items (_presentation_stream c) ++ replicate (Z.to_nat (_width c * r)) None)
    /\ _start_window c' = _start_window c + _width c * r
    /\ _end_window c' = _end_window c + _width c * r.
Proof.
  revert c k. induction chars as [|ch chars IH]; intros c k Hroom c'; subst c'.
  - exists 0. cbn [put_chars fold_left map list_inserts].
    destruct Hroom as [_ Hcur _ _ _]. unfold len. cbn [length].
    replace (Z.to_nat (_width c * 0)) with 0%nat by lia. cbn [replicate].
    rewrite app_nil_r. repeat split; lia.
  - rewrite len_cons in *. cbn [put_chars fold_left].
    destruct (add_char_step_room (false, []) ch c _ k Hroom ltac:(unfold len; lia))
      as (_ & [k' Hroom'] & _).
    replace (len chars + 1 - 1) with (len chars) in Hroom' by lia.
    destruct (put_char_frame ch c _ k Hroom ltac:(unfold len; lia)) as (Ew & Ecell & _).
    destruct (IH (put_char ch c) k' Hroom') as (r & Hr & Hfit & Hmin & Hitems & Hst & Hen).
    unfold put_chars in Hitems, Hst, Hen. rewrite Hitems, Hst, Hen. clear Hitems Hst Hen.
    rewrite Ew in *. rewrite (map_ext _ _ Ecell).
    pose proof Hroom as [[Hw Hh Hm Hs Hwin He Hc] Hcur Hk Htext Hmem].
    assert (Hn0 : 0 <= len chars) by (unfold len; lia).
    destruct (Z_lt_ge_dec (_cursor c) (stream_len c)) as [Hin|Hout].
    + rewrite put_char_within in * by lia.
      unfold stream_len, len in *.
      cbn [_cursor _presentation_stream _start_window _end_window items
           set_cursor set_presentation_stream] in *.
      rewrite length_insert in *.
      exists r. split; [lia|]. split; [lia|]. split; [intros; lia|].
      split; [|split; reflexivity].
      cbn [map list_inserts].
      replace (Z.to_nat (_cursor c + 1)) with (S (Z.to_nat (_cursor c))) by lia.
      rewrite <- insert_app_l by lia.
      rewrite list_insert_inserts_lt by lia. reflexivity.
    + assert (Hk1 : 1 <= k) by nia.
      assert (Hroom1 : stream_len c + _width c <= maxlen (_presentation_stream c)) by nia.
      rewrite put_char_grow in * by lia.
      unfold stream_len, len in *.
      cbn [_cursor _presentation_stream _start_window _end_window items
           set_cursor set_presentation_stream set_end_window set_start_window] in *.
      rewrite length_insert, length_app, length_replicate in *.
      exists (r + 1). split; [lia|]. split; [nia|]. split; [intros; nia|].
      split; [|split; lia].
      cbn [map list_inserts].
      replace (Z.to_nat (_cursor c + 1)) with (S (Z.to_nat (_cursor c))) by lia.
      rewrite <- insert_app_l by (rewrite length_app, length_replicate; lia).
      rewrite list_insert_inserts_lt by lia.
      rewrite <- app_assoc, <- replicate_add.
      replace (Z.to_nat (_width c) + Z.to_nat (_width c * r))%nat
        with (Z.to_nat (_width c * (r + 1))) by nia.
      reflexivity.
Qed.

Lemma add_char_room_writes (chars : pystr) (c : t) (k : Z) :
  room c (len chars) k ->
  let c' := snd (add_char chars c) in
  fst (add_char chars c) = Ok tt
  /\ _cursor c' = _cursor c + len chars
  /\ (exists r,
         0 <= r
         /\ _cursor c + len chars <= stream_len c + _width c * r
         /\ (0 < r -> stream_len c + _width c * (r - 1) < _cursor c + len chars)
         /\ stream_len c' = stream_len c + _width c * r
         /\ _start_window c' = _start_window c + _width c * r
         /\ _end_window c' = _end_window c + _width c * r)
  /\ (forall (i : nat) ch, chars !! i = Some ch ->
        cell c' (_cursor c + Z.of_nat i) = Some (cell_of c ch))
  /\ (forall j, 0 <= j < stream_len c ->
        ~ (_cursor c <= j < _cursor c + len chars) -> cell c' j = cell c j)
  /\ (forall j, stream_len c <= j < stream_len c' ->
        ~ (_cursor c <= j < _cursor c + len chars) -> cell c' j = Some None)
  /\ wf c'.
Proof.
  intros Hroom c'. subst c'. rewrite (add_char_room chars c k Hroom). cbn [fst snd].
  destruct (for_fold_room chars (false, []) c k Hroom)
    as (_ & _ & _ & _ & [k' [Hwf' _ _ _ _]] & Hcur' & _).
  destruct (put_chars_cells chars c k Hroom) as (r & Hr & Hfit & Hmin & Hitems & Hst & Hen).
  pose proof Hroom as [[Hw Hh Hm Hs Hwin He Hc] Hcur Hk Htext Hmem].
  assert (Hlen' : stream_len (put_chars chars c) = stream_len c + _width c * r).
  { unfold stream_len, len. rewrite Hitems, length_inserts, length_app, length_replicate.
    nia. }
  assert (Hn : len chars = Z.of_nat (length (map (cell_of c) chars))).
  { rewrite length_map. reflexivity. }
  unfold cell, stream_len in *.
  cbn [_cursor _presentation_stream _start_window _end_window set_log].
  split; [reflexivity|]. split; [exact Hcur'|].
  split; [exists r; repeat split; assumption|].
  split; [|split; [|split]].
  - intros i ch Hi. rewrite Hitems.
    pose proof (lookup_lt_Some _ _ _ Hi) as Hlt. unfold len in *.
    rewrite list_lookup_inserts.
    + replace (Z.to_nat (_cursor c + Z.of_nat i) - Z.to_nat (_cursor c))%nat with i by lia.
      change (map (cell_of c) chars) with (cell_of c <$> chars).
      rewrite list_lookup_fmap. unfold pystr in *. rewrite Hi. reflexivity.
    + rewrite length_map. lia.
    + rewrite length_app, length_replicate. nia.
  - intros j Hj Hout. rewrite Hitems. unfold len in *.
    destruct (Z_lt_ge_dec j (_cursor c)) as [Hlo|Hhi].
    + rewrite list_lookup_inserts_lt by lia. apply lookup_app_l. lia.
    + rewrite list_lookup_inserts_ge by (rewrite length_map; lia).
      apply lookup_app_l. lia.
  - intros j Hj Hout. rewrite Hitems. unfold len in *.
    assert (Hpad : (items (_presentation_stream c)
                      ++ replicate (Z.to_nat (_width c * r)) None) !! Z.to_nat j
                   = Some None).
    { rewrite lookup_app_r by lia. apply lookup_replicate_2. nia. }
    destruct (Z_lt_ge_dec j (_cursor c)) as [Hlo|Hhi].
    + rewrite list_lookup_inserts_lt by lia. exact Hpad.
    + rewrite list_lookup_inserts_ge by (rewrite length_map; lia). exact Hpad.
  - apply wf_set_log. exact Hwf'.
Qed.

(** The window keeps showing the last page; when no row was appended, so
    that the characters are drawn one by one, each of them is inside it. *)
Lemma add_char_room_at_bottom (chars : pystr) (c : t) (k : Z) :
  room c (len chars) k -> at_bottom c ->
  let c' := snd (add_char chars c) in
  at_bottom c'
  /\ (stream_len c' = stream_len c ->
      forall i, 0 <= i < len chars ->
        _start_window c' <= _cursor c + i <= _end_window c').
Proof.
  intros Hroom [Hs He] c'.
  destruct (add_char_room_writes chars c k Hroom)
    as (_ & H2 & (r & Hr0 & Hr1 & Hr2 & Hr3 & Hr4 & Hr5) & _).
  fold c' in H2, Hr3, Hr4, Hr5.
  destruct Hroom as [[Hw Hh Hm Hs0 Hwin He0 Hc] Hcur Hk Htext Hmem].
  assert (Hn : 0 <= len chars) by (unfold len; lia).
  assert (Hpage : _width c <= _width c * _height c) by nia.
  split.
  - unfold at_bottom. rewrite H2, Hr3, Hr4, Hr5. split; [|lia].
    destruct (Z.eq_dec r 0) as [-> | Hr]; [lia|].
    specialize (Hr2 ltac:(lia)). nia.
  - intros Hsame i Hi. rewrite Hr3 in Hsame.
    assert (r = 0) by nia. subst r.
    rewrite Hr4, Hr5. lia.
Qed.

Lemma Forall_list_inserts_2 {A} (P : A -> Prop) (i : nat) (ks l : list A) :
  Forall P ks -> Forall P l -> Forall P (list_inserts i ks l).
Proof.
  intros Hks. revert i.
  induction Hks as [|x ks Hx Hks IH]; intros i Hl; cbn [list_inserts]; [exact Hl|].
  apply Forall_insert; [apply IH; exact Hl | exact Hx].
Qed.

Lemma renderable_set_log (c : t) (l : list levelname) :
  renderable c -> renderable (set_log l c).
Proof. intros H. destruct c. exact H. Qed.

(** Writing does not touch the pen. *)
Lemma put_chars_pen (chars : pystr) (c : t) (k : Z) :
  room c (len chars) k ->
  foreground_colour (put_chars chars c) = foreground_colour c
  /\ background_colour (put_chars chars c) = background_colour c.
Proof.
  revert c k. induction chars as [|ch chars IH]; intros c k Hroom;
    [split; reflexivity|].
  rewrite len_cons in Hroom.
  assert (Hn : 1 <= len chars + 1) by (unfold len; lia).
  destruct (add_char_step_room (false, []) ch c _ _ Hroom Hn)
    as (_ & (k' & Hroom') & _).
  replace (len chars + 1 - 1) with (len chars) in Hroom' by lia.
  destruct (IH _ _ Hroom') as (Hf & Hb).
  destruct (put_char_frame ch c _ _ Hroom Hn) as (_ & Hcell & _).
  specialize (Hcell 0). unfold cell_of, new_char_args in Hcell.
  injection Hcell; intros.
  change (put_chars (ch :: chars) c) with (put_chars chars (put_char ch c)).
  split; congruence.
Qed.

(** Printable text written with a pen of byte colours leaves a state that
    can be drawn, when it started from one. *)
Lemma add_char_room_renderable (chars : pystr) (c : t) (k : Z) :
  room c (len chars) k -> printable chars -> renderable c ->
  renderable (snd (add_char chars c)).
Proof.
  intros Hroom Hp (Hf & Hb & Hcells).
  rewrite (add_char_room chars c k Hroom). cbn [snd].
  apply renderable_set_log.
  destruct (put_chars_pen chars c k Hroom) as (Ef & Eb).
  pose proof (put_chars_cells chars c k Hroom) as Hput. cbv zeta in Hput.
  destruct Hput as (r & _ & _ & _ & Hitems & _).
  assert (Hnew : Forall (fun x => match x with Some a => drawable a | None => True end)
                   (map (cell_of c) chars)).
  { clear -Hp Hf Hb. unfold printable in Hp.
    induction Hp as [|ch chars Hch _ IH]; cbn [map]; constructor; [|exact IH].
    unfold cell_of, new_char_args, drawable, printable. cbn.
    split; [constructor; [exact Hch | constructor] | split; assumption]. }
  split; [rewrite Ef; exact Hf|]. split; [rewrite Eb; exact Hb|].
  rewrite Hitems. apply Forall_list_inserts_2; [exact Hnew|].
  apply Forall_app. split; [exact Hcells | apply Forall_replicate; exact I].
Qed.

(** X11.  In a state with [room] that can be drawn and whose window shows
    the last page, [add_char] of a printable text and one [add_char] per
    character both succeed and reach states that differ by their log
    only; the state reached can be drawn and its window still shows the
    last page. *)
Theorem add_char_text_as_characters (chars : pystr) (c : t) (k : Z) :
  room c (len chars) k -> at_bottom c -> printable chars -> renderable c ->
  fst (add_char chars c) = Ok tt
  /\ fst (for_each (map (fun ch => [ch]) chars) add_char c) = Ok tt
  /\ same_data (snd (add_char chars c))
       (snd (for_each (map (fun ch => [ch]) chars) add_char c))
  /\ at_bottom (snd (add_char chars c))
  /\ renderable (snd (add_char chars c)).
Proof.
  intros Hroom Hbottom Hp Hr.
  destruct (add_char_room_as_characters chars c k Hroom) as (H1 & H2 & H3).
  destruct (add_char_room_at_bottom chars c k Hroom Hbottom) as (H4 & _).
  split; [exact H1|]. split; [exact H2|]. split; [exact H3|].
  split; [exact H4 | exact (add_char_room_renderable chars c k Hroom Hp Hr)].
Qed.

Lemma room_hello : room console_2x2 (len (lit "hello")) 1.
Proof.
  split; [apply wf_check_sound; reflexivity | | | |]; vm_compute; discriminate.
Qed.

Lemma printable_hello : printable (lit "hello").
Proof. repeat (apply Forall_cons_2; [vm_compute; split; discriminate|]). apply Forall_nil_2. Qed.

Lemma renderable_2x2 : renderable console_2x2.
Proof.
  split; [vm_compute; repeat split; discriminate|].
  split; [vm_compute; repeat split; discriminate|].
  repeat (apply Forall_cons_2; [exact I|]). apply Forall_nil_2.
Qed.

Lemma add_char_text_as_characters_witness :
  room console_2x2 (len (lit "hello")) 1
  /\ printable (lit "hello")
  /\ renderable console_2x2
  /\ same_data console_hello
       (snd (for_each (map (fun ch => [ch]) (lit "hello")) add_char console_2x2)).
Proof.
  split; [exact room_hello|]. split; [exact printable_hello|].
  split; [exact renderable_2x2|].
  destruct (add_char_text_as_characters (lit "hello") console_2x2 1 room_hello)
    as (_ & _ & H & _);
    [split; reflexivity | exact printable_hello | exact renderable_2x2 | exact H].
Defined.

(** X12.  In a state with [room] that can be drawn and whose window shows
    the last page, [add_char] of a printable text raises nothing, advances
    the cursor by the length of the text, appends the least number of
    blank rows that holds the text and moves the window down by as many,
    stores each character with the current pen at its place behind the
    cursor, keeps every other cell, and keeps the invariants; the window
    still shows the last page, when no row was appended every character
    written is inside it, and the state reached can be drawn. *)
Theorem add_char_writes (chars : pystr) (c : t) (k : Z) :
  room c (len chars) k -> at_bottom c -> printable chars -> renderable c ->
  let c' := snd (add_char chars c) in
  fst (add_char chars c) = Ok tt
  /\ _cursor c' = _cursor c + len chars
  /\ (exists r,
         0 <= r
         /\ _cursor c + len chars <= stream_len c + _width c * r
         /\ (0 < r -> stream_len c + _width c * (r - 1) < _cursor c + len chars)
         /\ stream_len c' = stream_len c + _width c * r
         /\ _start_window c' = _start_window c + _width c * r
         /\ _end_window c' = _end_window c + _width c * r)
  /\ (forall (i : nat) ch, chars !! i = Some ch ->
        cell c' (_cursor c + Z.of_nat i) = Some (cell_of c ch))
  /\ (forall j, 0 <= j < stream_len c ->
        ~ (_cursor c <= j < _cursor c + len chars) -> cell c' j = cell c j)
  /\ (forall j, stream_len c <= j < stream_len c' ->
        ~ (_cursor c <= j < _cursor c + len chars) -> cell c' j = Some None)
  /\ wf c'
  /\ at_bottom c'
  /\ (stream_len c' = stream_len c ->
      forall i, 0 <= i < len chars ->
        _start_window c' <= _cursor c + i <= _end_window c')
  /\ renderable c'.
Proof.
  intros Hroom Hbottom Hp Hr c'.
  destruct (add_char_room_writes chars c k Hroom)
    as (H1 & H2 & H3 & H4 & H5 & H6 & H7).
  destruct (add_char_room_at_bottom chars c k Hroom Hbottom) as (H8 & H9).
  split; [exact H1|]. split; [exact H2|]. split; [exact H3|].
  split; [exact H4|]. split; [exact H5|]. split; [exact H6|].
  split; [exact H7|]. split; [exact H8|]. split; [exact H9|].
  exact (add_char_room_renderable chars c k Hroom Hp Hr).
Qed.

Lemma add_char_writes_witness :
  room console_2x2 (len (lit "hello")) 1
  /\ printable (lit "hello")
  /\ renderable console_2x2
  /\ fst (add_char (lit "hello") console_2x2) = Ok tt
  /\ _cursor console_hello = 5
  /\ cell console_hello 4 = Some (cell_of console_2x2 111)
  /\ wf console_hello.
Proof.
  destruct (add_char_writes (lit "hello") console_2x2 1 room_hello)
    as (H1 & H2 & _ & H3 & _ & _ & H4 & _);
    [split; reflexivity | exact printable_hello | exact renderable_2x2 |].
  split; [exact room_hello|]. split; [exact printable_hello|].
  split; [exact renderable_2x2|]. split; [exact H1|]. split; [exact H2|].
  split; [exact (H3 4%nat 111 ltac:(reflexivity)) | exact H4].
Defined.

(** ** [add_char] with the cursor a row or more behind the stream *)

Lemma add_char_step_gap (acc : bool * list Z) (ch : Z) (c : t) :
  0 <= _width c -> stream_len c + _width c <= _cursor c ->
  fst (add_char_step acc ch c) = Raise IndexError.
Proof.
  intros Hw Hcur. destruct acc as [render_all list_of_indexes].
  unfold add_char_step, bind at 1, get at 1. cbn beta iota.
  unfold bind at 1. rewrite add_line_if_needed_beyond by lia.
  unfold bind at 1, get at 1. cbn beta iota. unfold bind at 1.
  rewrite stream_setitem_out; [reflexivity|].
  unfold stream_len, len, deque_extend in *.
  cbn [_presentation_stream set_end_window set_start_window
       set_presentation_stream _cursor items].
  rewrite length_deque_trim, length_app, list_mul_singleton, length_replicate. lia.
Qed.

(** X13.  One blank row is all [add_char] appends: when the cursor lies a whole
    row or more behind the end of the stream, as line feeds can put it,
    any text that is not empty raises [IndexError]. *)
Theorem add_char_behind_stream_raises (chars : pystr) (c : t) :
  0 <= _width c -> stream_len c + _width c <= _cursor c -> chars <> [] ->
  fst (add_char chars c) = Raise IndexError.
Proof.
  intros Hw Hcur Hne. destruct chars as [|ch1 [|ch2 chars]]; [congruence| |].
  - unfold add_char.
    change (len [ch1] =? 0) with false. change (len [ch1] =? 1) with true. cbv iota.
    unfold bind at 1, log_record at 1, modify at 1. cbn beta iota.
    unfold bind at 1, get at 1. cbn beta iota. unfold bind at 1.
    rewrite add_line_if_needed_beyond by (unfold stream_len in *; cbn; lia).
    unfold bind at 1, get at 1. cbn beta iota. unfold bind at 1.
    rewrite stream_setitem_out; [reflexivity|].
    unfold stream_len, len, deque_extend in *.
    cbn [_presentation_stream set_end_window set_start_window set_log
         set_presentation_stream _cursor items _width].
    rewrite length_deque_trim, length_app, list_mul_singleton, length_replicate. lia.
  - set (text := ch1 :: ch2 :: chars). unfold add_char.
    assert (Hlen2 : 2 <= len text) by (unfold text, len; cbn [length]; lia).
    destruct (len text =? 0) eqn:E0; [lia|].
    destruct (len text =? 1) eqn:E1; [lia|].
    unfold bind at 1, log_record at 1, modify at 1. cbn beta iota.
    apply bind_raises. subst text. cbn [for_fold]. apply bind_raises.
    apply add_char_step_gap; unfold stream_len in *; cbn; lia.
Qed.

Lemma add_char_behind_stream_raises_witness :
  let c := snd (line_field (snd (line_field (snd (line_field console_2x2))))) in
  stream_len c = 4 /\ _cursor c = 6
  /\ fst (add_char (lit "a") c) = Raise IndexError.
Proof.
  intros c. split; [reflexivity|]. split; [reflexivity|].
  apply (add_char_behind_stream_raises (lit "a") c);
    [discriminate | discriminate | discriminate].
Defined.

(** ** The [memory_size], [width] and [height] setters *)

(** X14.  A memory smaller than the page is refused with a warning and nothing
    else changes; any other is stored and the console starts again from a
    blank page, in a state that satisfies the invariants. *)
Theorem memory_size_set_page_or_refuse (c : t) (value : Z) :
  0 < _width c -> 0 < _height c ->
  (value < _width c * _height c ->
   memory_size_set value c = (Ok tt, set_log (log c ++ [WARNING]) c))
  /\ (_width c * _height c <= value ->
      let c' := snd (memory_size_set value c) in
      fst (memory_size_set value c) = Ok tt
      /\ memory_size c' = value
      /\ _presentation_stream c' =
           mk_deque (replicate (Z.to_nat (_width c * _height c)) None) value
      /\ _cursor c' = 0 /\ _start_window c' = 0
      /\ _end_window c' = _width c * _height c - 1
      /\ wf c').
Proof.
  intros Hw Hh. split; intros Hv.
  - unfold memory_size_set, bind, get. cbn beta iota.
    destruct (value >=? _width c * _height c) eqn:E; [lia | reflexivity].
  - unfold memory_size_set, bind, get, modify. cbn beta iota.
    destruct (value >=? _width c * _height c) eqn:E; [|lia].
    rewrite console_reinit_ok by (cbn; lia).
    cbn -[Z.mul replicate].
    do 6 (split; [reflexivity|]).
    split; unfold stream_len, len; cbn -[Z.mul replicate];
      rewrite ?length_replicate; nia.
Qed.

Lemma memory_size_set_page_or_refuse_witness :
  memory_size_set 3 console_2x2 = (Ok tt, set_log [WARNING] console_2x2)
  /\ fst (memory_size_set 4 console_2x2) = Ok tt
  /\ wf (snd (memory_size_set 4 console_2x2)).
Proof.
  destruct (memory_size_set_page_or_refuse console_2x2 3) as [H _];
    [reflexivity | reflexivity |].
  destruct (memory_size_set_page_or_refuse console_2x2 4) as [_ H'];
    [reflexivity | reflexivity |].
  specialize (H ltac:(reflexivity)).
  destruct (H' ltac:(discriminate)) as (H1 & _ & _ & _ & _ & _ & H2).
  split; [exact H | split; [exact H1 | exact H2]].
Defined.

Lemma console_reinit_state (c : t) :
  0 <= _char_memory_size c -> 0 <= _width c -> 0 <= _height c ->
  console_reinit c =
    (Ok tt,
     set_end_window (_width c * _height c - 1)
       (set_start_window 0
          (set_cursor 0
             (set_presentation_stream
                (mk_deque
                   (replicate
                      (Z.to_nat (Z.min (_width c * _height c) (_char_memory_size c)))
                      None)
                   (_char_memory_size c)) c)))).
Proof.
  intros Hm Hw Hh. unfold console_reinit, bind, get, lift_outcome, deque_new.
  destruct (_char_memory_size c <? 0) eqn:E; [lia|].
  rewrite blank_page_replicate by lia.
  assert (Et : deque_trim (replicate (Z.to_nat (_width c * _height c)) (@None CharArgs.t))
                 (_char_memory_size c)
               = replicate (Z.to_nat (Z.min (_width c * _height c) (_char_memory_size c)))
                   None).
  { unfold deque_trim. rewrite drop_replicate, length_replicate. f_equal. lia. }
  rewrite Et. reflexivity.
Qed.

(** X15.  The [width] setter refuses a value that is not positive; it stores any
    other without comparing the new page with the memory, and the state
    reached satisfies the invariants exactly when the new page fits. *)
Theorem width_set_page_and_memory (c : t) (value : Z) :
  0 < _height c -> 0 <= _char_memory_size c ->
  (value <= 0 -> width_set value c = (Ok tt, set_log (log c ++ [WARNING]) c))
  /\ (0 < value ->
      let c' := snd (width_set value c) in
      fst (width_set value c) = Ok tt
      /\ _width c' = value /\ _height c' = _height c
      /\ _cursor c' = 0 /\ _start_window c' = 0
      /\ _end_window c' = value * _height c - 1
      /\ stream_len c' = Z.min (value * _height c) (_char_memory_size c)
      /\ (wf c' <-> value * _height c <= _char_memory_size c)).
Proof.
  intros Hh Hm. split; intros Hv.
  - unfold width_set. destruct (value >? 0) eqn:E; [lia | reflexivity].
  - unfold width_set. destruct (value >? 0) eqn:E; [|lia].
    unfold bind, modify. cbn beta iota.
    rewrite console_reinit_state by (cbn; lia).
    unfold stream_len, len. cbn -[Z.mul replicate Z.min].
    rewrite length_replicate.
    do 6 (split; [reflexivity|]). split; [lia|]. split.
    + intros [Hw' Hh' Hm' Hs' Hwin' He' Hc']. cbn in Hm'. exact Hm'.
    + intros Hfit. split; unfold stream_len, len; cbn -[Z.mul replicate Z.min];
        rewrite ?length_replicate; nia.
Qed.

Lemma width_set_page_and_memory_witness :
  width_set 0 console_2x2 = (Ok tt, set_log [WARNING] console_2x2)
  /\ fst (width_set 3 console_2x2) = Ok tt
  /\ wf (snd (width_set 3 console_2x2)).
Proof.
  destruct (width_set_page_and_memory console_2x2 0) as [H _];
    [reflexivity | discriminate |].
  destruct (width_set_page_and_memory console_2x2 3) as [_ H'];
    [reflexivity | discriminate |].
  specialize (H ltac:(discriminate)).
  destruct (H' ltac:(reflexivity)) as (H1 & _ & _ & _ & _ & _ & _ & H2).
  split; [exact H | split; [exact H1 | apply H2; discriminate]].
Defined.

(** X16.  The [height] setter refuses a value that is not positive; it
    stores any other without comparing the new page with the memory, and
    the state reached satisfies the invariants exactly when the new page
    fits. *)
Theorem height_set_page_and_memory (c : t) (value : Z) :
  0 < _width c -> 0 <= _char_memory_size c ->
  (value <= 0 -> height_set value c = (Ok tt, set_log (log c ++ [WARNING]) c))
  /\ (0 < value ->
      let c' := snd (height_set value c) in
      fst (height_set value c) = Ok tt
      /\ _width c' = _width c /\ _height c' = value
      /\ _cursor c' = 0 /\ _start_window c' = 0
      /\ _end_window c' = _width c * value - 1
      /\ stream_len c' = Z.min (_width c * value) (_char_memory_size c)
      /\ (wf c' <-> _width c * value <= _char_memory_size c)).
Proof.
  intros Hw Hm. split; intros Hv.
  - unfold height_set. destruct (value >? 0) eqn:E; [lia | reflexivity].
  - unfold height_set. destruct (value >? 0) eqn:E; [|lia].
    unfold bind, modify. cbn beta iota.
    rewrite console_reinit_state by (cbn; lia).
    unfold stream_len, len. cbn -[Z.mul replicate Z.min].
    rewrite length_replicate.
    do 6 (split; [reflexivity|]). split; [lia|]. split.
    + intros [Hw' Hh' Hm' Hs' Hwin' He' Hc']. cbn in Hm'. exact Hm'.
    + intros Hfit. split; unfold stream_len, len; cbn -[Z.mul replicate Z.min];
        rewrite ?length_replicate; nia.
Qed.

Lemma height_set_page_and_memory_witness :
  height_set 0 console_2x2 = (Ok tt, set_log [WARNING] console_2x2)
  /\ fst (height_set 3 console_2x2) = Ok tt
  /\ wf (snd (height_set 3 console_2x2)).
Proof.
  destruct (height_set_page_and_memory console_2x2 0) as [H _];
    [reflexivity | discriminate |].
  destruct (height_set_page_and_memory console_2x2 3) as [_ H'];
    [reflexivity | discriminate |].
  specialize (H ltac:(discriminate)).
  destruct (H' ltac:(reflexivity)) as (H1 & _ & _ & _ & _ & _ & _ & H2).
  split; [exact H | split; [exact H1 | apply H2; discriminate]].
Defined.

(** ** The constructor *)

Lemma stream_getitem_out (c : t) (i : Z) :
  stream_len c <= i -> stream_getitem i c = (Raise IndexError, c).
Proof.
  intros H. unfold stream_getitem, deque_getitem. rewrite deque_index_out by exact H.
  reflexivity.
Qed.

Lemma render_cells_raise (n : nat) (a : Z) (c : t) :
  0 <= a -> (0 < n)%nat -> stream_len c < a + Z.of_nat n ->
  for_each (py_range a (a + Z.of_nat n)) _render_char c = (Raise IndexError, c).
Proof.
  revert a. induction n as [|n IH]; intros a Ha Hn Hb.
  - lia.
  - rewrite py_range_cons by lia. cbn [for_each].
    unfold bind at 1, _render_char at 1, bind at 1.
    destruct (Z_lt_ge_dec a (stream_len c)) as [Hin|Hout].
    + destruct (stream_getitem_in c a) as [x ->]; [lia|]. cbn.
      replace (a + Z.of_nat (S n)) with (a + 1 + Z.of_nat n) by lia. apply IH; lia.
    + rewrite stream_getitem_out by lia. reflexivity.
Qed.

(** A window that reaches beyond the stream makes rendering raise. *)
Lemma _render_all_raise (c : t) :
  0 <= _start_window c <= _end_window c -> stream_len c <= _end_window c ->
  _render_all c = (Raise IndexError, c).
Proof.
  intros Hs He. unfold _render_all, bind, get.
  replace (_end_window c + 1)
    with (_start_window c
          + Z.of_nat (Z.to_nat (_end_window c + 1 - _start_window c))) by lia.
  apply render_cells_raise; lia.
Qed.

Lemma init_beyond_memory (w h ft bt : Z) :
  0 < w -> 0 < h -> DEFAULT_CHAR_MEMORY_SIZE < w * h ->
  fst (__init__ w h ft bt) = Raise IndexError
  /\ stream_len (snd (__init__ w h ft bt)) = DEFAULT_CHAR_MEMORY_SIZE.
Proof.
  intros Hw Hh Hm.
  unfold __init__. rewrite list_mul_singleton, list_mul_replicate.
  assert (Et : deque_trim (replicate (Z.to_nat h * Z.to_nat w) (@None CharArgs.t))
                 DEFAULT_CHAR_MEMORY_SIZE
               = replicate (Z.to_nat DEFAULT_CHAR_MEMORY_SIZE) None).
  { unfold deque_trim. rewrite drop_replicate, length_replicate. f_equal. nia. }
  rewrite Et. rewrite _render_all_raise.
  - split; [reflexivity|]. unfold stream_len, len.
    cbn -[replicate DEFAULT_CHAR_MEMORY_SIZE Z.to_nat]. rewrite length_replicate.
    unfold DEFAULT_CHAR_MEMORY_SIZE. lia.
  - cbn -[Z.mul]. lia.
  - unfold stream_len, len. cbn -[Z.mul replicate DEFAULT_CHAR_MEMORY_SIZE Z.to_nat].
    rewrite length_replicate. unfold DEFAULT_CHAR_MEMORY_SIZE in *. lia.
Qed.

(** With transparencies that are bytes the pen of a new console has byte
    colours, and its cells are blank: the state can be drawn. *)
Lemma init_renderable (w h ft bt : Z) :
  0 <= ft <= 255 -> 0 <= bt <= 255 -> renderable (snd (__init__ w h ft bt)).
Proof.
  intros Hft Hbt. unfold __init__. rewrite _render_all_state.
  unfold renderable, colour_in_range.
  cbn -[deque_trim list_mul DEFAULT_CHAR_MEMORY_SIZE].
  split; [lia|]. split; [lia|].
  rewrite list_mul_singleton, list_mul_replicate. unfold deque_trim.
  apply Forall_drop, Forall_replicate. exact I.
Qed.



(** A colour whose four components lie in [0, 255]. *)
Lemma in_byte_range_ok (z : Z) : 0 <= z <= 255 -> in_byte_range (VInt z) = Ok true.
Proof.
  intros H. unfold in_byte_range.
  replace (-1 <? z) with true by lia. replace (z <? 256) with true by lia. reflexivity.
Qed.

Lemma clamp_in_range (z : Z) :
  0 <= z <= 255 -> (if z >? 255 then 255 else if z <? 0 then 0 else z) = z.
Proof. intros H. destruct (z >? 255) eqn:E1; destruct (z <? 0) eqn:E2; lia. Qed.

Lemma foreground_colour_set_rgba (c : t) (r g b a : Z) :
  0 <= r <= 255 -> 0 <= g <= 255 -> 0 <= b <= 255 -> 0 <= a <= 255 ->
  0 <= _start_window c -> _end_window c < stream_len c ->
  foreground_colour_set (VSeq [VInt r; VInt g; VInt b; VInt a]) c =
    (Ok tt,
     set_log ((log c ++ [DEBUG]) ++ [DEBUG])
       (set_font_transparency a
          (set_current_foreground_colour (mkColour r g b a) c))).
Proof.
  intros Hr Hg Hb Ha Hs He.
  unfold foreground_colour_set, bind, lift_outcome, py_len.
  change (len [VInt r; VInt g; VInt b; VInt a] =? 4) with true. cbv beta iota.
  unfold components_in_range. cbn [seq fold_right py_item nth].
  rewrite !in_byte_range_ok by assumption. cbn [py_and].
  unfold modify at 1. cbn beta iota.
  unfold font_transparency_set, bind, log_record, modify. cbn [int_of_value].
  rewrite clamp_in_range by assumption. cbn beta iota.
  rewrite _render_all_ok by (cbn; assumption). reflexivity.
Qed.

Lemma background_colour_set_rgba (c : t) (r g b a : Z) :
  0 <= r <= 255 -> 0 <= g <= 255 -> 0 <= b <= 255 -> 0 <= a <= 255 ->
  0 <= _start_window c -> _end_window c < stream_len c ->
  background_colour_set (VSeq [VInt r; VInt g; VInt b; VInt a]) c =
    (Ok tt,
     set_log ((log c ++ [DEBUG]) ++ [DEBUG])
       (set_background_transparency a
          (set_current_background_colour (mkColour r g b a) c))).
Proof.
  intros Hr Hg Hb Ha Hs He.
  unfold background_colour_set, bind, lift_outcome, py_len.
  change (len [VInt r; VInt g; VInt b; VInt a] =? 4) with true. cbv beta iota.
  unfold components_in_range. cbn [seq fold_right py_item nth].
  rewrite !in_byte_range_ok by assumption. cbn [py_and].
  unfold modify at 1. cbn beta iota.
  unfold background_transparency_set, bind, log_record, modify. cbn [int_of_value].
  rewrite clamp_in_range by assumption. cbn beta iota.
  rewrite _render_all_ok by (cbn; assumption). reflexivity.
Qed.



(** X19.  A sequence of integers that is not a triple or a quadruple in range
    is refused: a warning is logged and nothing else changes. *)
Theorem foreground_colour_set_refuses (c : t) (zs : list Z) :
  ~ ((length zs = 3%nat \/ length zs = 4%nat) /\ Forall (fun z => 0 <= z <= 255) zs) ->
  foreground_colour_set (VSeq (map VInt zs)) c =
    (Ok tt, set_log (log c ++ [WARNING]) c).
Proof.
  intros H.
  destruct zs as [|r [|g [|b [|a [|x zs]]]]];
    try (apply foreground_colour_set_wrong_length; cbn; lia).
  - apply foreground_colour_set_rgb_out_of_range. intros (Hr & Hg & Hb).
    apply H. split; [left; reflexivity|].
    repeat (apply Forall_cons_2; [assumption|]). apply Forall_nil_2.
  - apply foreground_colour_set_rgba_out_of_range. intros (Hr & Hg & Hb & Ha).
    apply H. split; [right; reflexivity|].
    repeat (apply Forall_cons_2; [assumption|]). apply Forall_nil_2.
Qed.

Lemma foreground_colour_set_refuses_witness :
  foreground_colour_set (VSeq [VInt 300; VInt 0; VInt 0]) console_2x2 =
    (Ok tt, set_log [WARNING] console_2x2)
  /\ foreground_colour_set (VSeq [VInt 1; VInt 2]) console_2x2 =
    (Ok tt, set_log [WARNING] console_2x2).
Proof.
  split.
  - apply (foreground_colour_set_refuses console_2x2 [300; 0; 0]).
    intros [_ H]. apply Forall_cons_1 in H. lia.
  - apply (foreground_colour_set_refuses console_2x2 [1; 2]).
    intros [[H | H] _]; discriminate H.
Defined.

(** ** SGR sub-parameters *)

Lemma sgr_swap_state (c : t) :
  colour_in_range (foreground_colour c) -> colour_in_range (background_colour c) ->
  0 <= _start_window c -> _end_window c < stream_len c ->
  RawIOConsole.sgr_param (lit "7") c =
    (Ok tt,
     set_log ((((log c ++ [DEBUG]) ++ [DEBUG]) ++ [DEBUG]) ++ [DEBUG])
       (set_background_transparency (alpha (foreground_colour c))
          (set_current_background_colour (foreground_colour c)
             (set_font_transparency (alpha (background_colour c))
                (set_current_foreground_colour (background_colour c) c))))).
Proof.
  intros (Hr1 & Hg1 & Hb1 & Ha1) (Hr2 & Hg2 & Hb2 & Ha2) Hs He.
  unfold RawIOConsole.sgr_param.
  change (dict_get RawIOConsole.SUPPORTED_SGR_PARAMETERS (lit "7"))
    with (Some RawIOConsole.negative). cbv iota.
  unfold bind at 1, get at 1. cbn beta iota. unfold bind at 1.
  unfold value_of_colour.
  rewrite foreground_colour_set_rgba by assumption.
  rewrite background_colour_set_rgba by (cbn; assumption).
  unfold foreground_colour, background_colour in *.
  destruct (_current_foreground_colour c), (_current_background_colour c).
  reflexivity.
Qed.

(** X20.  Sub-parameter 7 on a pen whose colours are in range, in a state that
    satisfies the invariants: the two colours are exchanged, and since the exchange goes through the setters with
    quadruples, each stored transparency becomes the alpha of the colour
    that arrives; a second 7 gives the two colours back; 27 does what 7
    does. *)
Theorem sgr_negative_exchanges (c : t) :
  colour_in_range (foreground_colour c) -> colour_in_range (background_colour c) ->
  wf c ->
  let c1 := snd (RawIOConsole.sgr_param (lit "7") c) in
  let c2 := snd (RawIOConsole.sgr_param (lit "7") c1) in
  fst (RawIOConsole.sgr_param (lit "7") c) = Ok tt
  /\ foreground_colour c1 = background_colour c
  /\ background_colour c1 = foreground_colour c
  /\ font_transparency c1 = alpha (background_colour c)
  /\ background_transparency c1 = alpha (foreground_colour c)
  /\ fst (RawIOConsole.sgr_param (lit "7") c1) = Ok tt
  /\ foreground_colour c2 = foreground_colour c
  /\ background_colour c2 = background_colour c
  /\ RawIOConsole.sgr_param (lit "27") c = RawIOConsole.sgr_param (lit "7") c.
Proof.
  intros Hf Hb [Hw Hh Hm Hs Hwin He Hc] c1 c2. subst c2 c1.
  assert (E27 : RawIOConsole.sgr_param (lit "27") c = RawIOConsole.sgr_param (lit "7") c)
    by reflexivity.
  rewrite E27. clear E27.
  rewrite (sgr_swap_state c) by assumption. cbn [fst snd].
  rewrite sgr_swap_state by (cbn; assumption). cbn.
  repeat split.
Qed.

Lemma sgr_negative_exchanges_witness :
  let c1 := snd (RawIOConsole.sgr_param (lit "7") console_2x2) in
  foreground_colour console_2x2 = mkColour 255 255 255 255
  /\ background_colour console_2x2 = mkColour 0 0 0 255
  /\ foreground_colour c1 = mkColour 0 0 0 255
  /\ background_colour c1 = mkColour 255 255 255 255.
Proof.
  intros c1.
  destruct (sgr_negative_exchanges console_2x2) as (_ & H1 & H2 & _);
    [repeat split; discriminate | repeat split; discriminate
     | apply wf_check_sound; reflexivity |].
  split; [reflexivity|]. split; [reflexivity|]. split; [exact H1 | exact H2].
Defined.

Lemma pystr_eqb_eq (s s' : pystr) : pystr_eqb s s' = true -> s = s'.
Proof.
  revert s'. induction s as [|a s IH]; intros [|b s'] H; cbn in H; try discriminate.
  - reflexivity.
  - apply andb_prop in H. destruct H as [H1 H2].
    apply Z.eqb_eq in H1. apply IH in H2. congruence.
Qed.

Lemma dict_get_Some_In {V} (d : list (pystr * V)) (k : pystr) (v : V) :
  dict_get d k = Some v -> In (k, v) d.
Proof.
  induction d as [|[k' v'] d IH]; cbn; [discriminate|].
  destruct (pystr_eqb k' k) eqn:E.
  - intros H. inversion H. subst. apply pystr_eqb_eq in E. subst. left. reflexivity.
  - intros H. right. apply IH. exact H.
Qed.

(** X21.  Each of the 32 colour codes of the two SGR tables names a colour of
    [STANDARD_COLOURS] and is no style parameter: as a sub-parameter it
    sets the foreground, respectively the background, to that colour with
    the stored transparency of the channel as alpha. *)
Theorem sgr_colour_codes (code name : pystr) :
  (dict_get RawIOConsole.STANDARD_FOREGROUND_COLOURS code = Some name ->
   exists colour,
     dict_get STANDARD_COLOURS name = Some colour
     /\ forall c,
          RawIOConsole.sgr_param code c =
            (Ok tt, set_log (log c ++ [DEBUG])
                      (set_current_foreground_colour
                         (_replace_alpha colour (font_transparency c)) c)))
  /\ (dict_get RawIOConsole.STANDARD_BACKGROUND_COLOURS code = Some name ->
      exists colour,
        dict_get STANDARD_COLOURS name = Some colour
        /\ forall c,
             RawIOConsole.sgr_param code c =
               (Ok tt, set_log (log c ++ [DEBUG])
                         (set_current_background_colour
                            (_replace_alpha colour (background_transparency c)) c))).
Proof.
  split; intros H; apply dict_get_Some_In in H; cbn [In] in H;
    repeat (destruct H as [H|H];
            [inversion H; subst; eexists; split; [reflexivity | intros c; reflexivity]|]);
    contradiction.
Qed.

Lemma sgr_colour_codes_witness :
  foreground_colour (snd (RawIOConsole.sgr_param (lit "31") console_2x2)) =
    mkColour 170 0 0 255
  /\ background_colour (snd (RawIOConsole.sgr_param (lit "44") console_2x2)) =
    mkColour 0 0 170 255.
Proof.
  destruct (sgr_colour_codes (lit "31") (lit "red")) as [H1 _].
  destruct (sgr_colour_codes (lit "44") (lit "blue")) as [_ H2].
  destruct (H1 ltac:(reflexivity)) as (col1 & E1 & F1).
  destruct (H2 ltac:(reflexivity)) as (col2 & E2 & F2).
  rewrite F1, F2. inversion E1. inversion E2. split; reflexivity.
Defined.

(** ** The escape decoder: sequences that are not carried out *)

Lemma then_ret_result {S A B} (m : M S A) (x r : B) (s s' : S) :
  (m ;; ret x) s = (Ok r, s') -> r = x.
Proof.
  unfold bind, ret. destruct (m s) as [[a|e] s1]; intros H; inversion H. reflexivity.
Qed.

(** X22.  A sequence classified [error] or [incomplete] has changed nothing on
    the console. *)
Theorem unaccepted_sequence_changes_nothing
    (py_int : list byte -> option Z) (sequence : list byte)
    (c c' : Console.t) (r : RawIOConsole.decoded) :
  RawIOConsole._esc_seq_decode py_int sequence c = (Ok r, c') ->
  r <> RawIOConsole.successful -> c' = c.
Proof.
  intros H Hr.
  assert (Hret : forall x, @ret Console.t _ x c = (Ok r, c') -> c' = c).
  { unfold ret. intros x Hx. inversion Hx. reflexivity. }
  assert (Hthen : forall (m : M Console.t unit),
             (m ;; ret RawIOConsole.successful) c = (Ok r, c') -> c' = c).
  { intros m Hm. apply then_ret_result in Hm. contradiction. }
  unfold RawIOConsole._esc_seq_decode in H.
  repeat match type of H with
         | (if ?b then _ else _) _ = _ => destruct b
         | match ?x with _ => _ end _ = _ => destruct x
         end;
    try (apply Hret in H; exact H); try (apply Hthen in H; exact H).
  all: try (unfold RawIOConsole.scroll_lines in H; apply Hthen in H; exact H).
  all: try (unfold RawIOConsole.erase_in_display in H;
            repeat match type of H with
                   | (if ?b then _ else _) _ = _ => destruct b
                   end;
            solve [apply Hret in H; exact H | apply Hthen in H; exact H]).
  unfold RawIOConsole.select_graphic_rendition in H.
  unfold bind at 1 in H. unfold lift_outcome in H.
  destruct (bytes_decode _) as [text|e]; [|discriminate].
  apply Hthen in H. exact H.
Qed.

Lemma unaccepted_sequence_changes_nothing_witness :
  fst (RawIOConsole._esc_seq_decode int_of_digits [x1b; x5b; x37; x4a] console_hi) =
    Ok RawIOConsole.error
  /\ snd (RawIOConsole._esc_seq_decode int_of_digits [x1b; x5b; x37; x4a] console_hi) =
    console_hi.
Proof.
  split; [reflexivity|].
  apply (unaccepted_sequence_changes_nothing int_of_digits [x1b; x5b; x37; x4a]
           console_hi _ RawIOConsole.error);
    [vm_compute; reflexivity | discriminate].
Defined.

(** As long as the last byte received is outside 0x40..0x7E, a control
    sequence is incomplete, however long it is. *)
Lemma csi_without_final_byte
    (py_int : list byte -> option Z) (params : list byte) (b : byte) (c : Console.t) :
  RawIOConsole.FINAL_RANGE (ord b) = false ->
  RawIOConsole._esc_seq_decode py_int (x1b :: x5b :: params ++ [b]) c =
    (Ok RawIOConsole.incomplete, c).
Proof. intros H. rewrite _esc_seq_decode_csi. cbv zeta. rewrite H. reflexivity. Qed.

(** ** [write] *)

Lemma set_console_id (s : RawIOConsole.t) :
  RawIOConsole.set_console (RawIOConsole._console s) s = s.
Proof. destruct s. reflexivity. Qed.

Lemma utf8_check_decodes (bs : list byte) : decodes bs -> RawIOConsole.utf8_check bs = bs.
Proof. intros [s H]. unfold RawIOConsole.utf8_check. rewrite H. reflexivity. Qed.

Lemma for_each_app {S A} (l1 l2 : list A) (body : A -> M S unit) (s : S) :
  for_each (l1 ++ l2) body s = (for_each l1 body ;; for_each l2 body) s.
Proof.
  revert s. induction l1 as [|x l1 IH]; intros s; [reflexivity|].
  cbn [app for_each]. unfold bind.
  destruct (body x s) as [[[]|e] s1]; [|reflexivity].
  rewrite IH. reflexivity.
Qed.

(** The loop of [write] inside a control sequence, over bytes that do not
    end it. *)
Lemma write_bytes_inside_csi
    (py_int : list byte -> option Z) (bs params : list byte) (s : RawIOConsole.t) :
  RawIOConsole._byte_esc_seq s = x1b :: x5b :: params ->
  Forall (fun b => RawIOConsole.FINAL_RANGE (ord b) = false) bs ->
  for_each bs (RawIOConsole.write_byte py_int) s =
    (Ok tt, RawIOConsole.set_byte_esc_seq (RawIOConsole._byte_esc_seq s ++ bs) s).
Proof.
  intros Hesc Hall. revert params s Hesc.
  induction Hall as [|b bs Hb Hall IH]; intros params s Hesc.
  - cbn. rewrite app_nil_r. destruct s. reflexivity.
  - cbn [for_each]. unfold bind at 1.
    assert (Hstep : RawIOConsole.write_byte py_int b s =
                    (Ok tt, RawIOConsole.set_byte_esc_seq
                              (RawIOConsole._byte_esc_seq s ++ [b]) s)).
    { unfold RawIOConsole.write_byte, bind at 1, get at 1. cbn beta iota.
      rewrite Hesc.
      replace (len (x1b :: x5b :: params) >? 0) with true
        by (symmetry; apply Z.gtb_gt; unfold len; cbn [length]; lia).
      unfold bind at 1, modify at 1. cbn beta iota.
      unfold bind at 1, get at 1. cbn beta iota.
      unfold bind at 1, RawIOConsole.on_console.
      cbn [RawIOConsole._byte_esc_seq RawIOConsole.set_byte_esc_seq
           RawIOConsole._console].
      rewrite Hesc. cbn [app]. rewrite csi_without_final_byte by exact Hb.
      cbn [RawIOConsole.after_decode ret]. destruct s. reflexivity. }
    rewrite Hstep.
    rewrite (IH (params ++ [b])).
    + cbn [RawIOConsole._byte_esc_seq RawIOConsole.set_byte_esc_seq].
      rewrite <- app_assoc. destruct s. reflexivity.
    + cbn [RawIOConsole._byte_esc_seq RawIOConsole.set_byte_esc_seq].
      rewrite Hesc. reflexivity.
Qed.

(** X23.  Nothing bounds a control sequence: once [ESC []] is buffered, every
    byte outside 0x40..0x7E is kept in [_byte_esc_seq], which grows by the
    whole buffer at each call, and the console is not touched. *)
Theorem control_sequence_grows_without_bound
    (py_int : list byte -> option Z) (bs params : list byte) (s : RawIOConsole.t) :
  RawIOConsole._byte_esc_seq s = x1b :: x5b :: params ->
  RawIOConsole._byte_displaying_char s = [] ->
  decodes bs ->
  Forall (fun b => RawIOConsole.FINAL_RANGE (ord b) = false) bs ->
  RawIOConsole.write py_int bs s =
    (Ok (len bs),
     RawIOConsole.set_byte_esc_seq (x1b :: x5b :: params ++ bs) s).
Proof.
  intros Hesc Hdis Hdec Hall. unfold RawIOConsole.write.
  rewrite (utf8_check_decodes bs Hdec). unfold bind at 1.
  rewrite (write_bytes_inside_csi py_int bs params s Hesc Hall).
  unfold bind at 1, RawIOConsole.flush_displaying_char, bind at 1, get at 1.
  cbn beta iota. cbn [RawIOConsole._byte_displaying_char RawIOConsole.set_byte_esc_seq].
  rewrite Hdis, Hesc. reflexivity.
Qed.

Lemma control_sequence_grows_without_bound_witness :
  let s := RawIOConsole.mk console_2x2 [x1b; x5b] [] [] in
  RawIOConsole.write int_of_digits [x31; x3b; x33; x31] s =
    (Ok 4, RawIOConsole.set_byte_esc_seq [x1b; x5b; x31; x3b; x33; x31] s).
Proof.
  intros s.
  apply (control_sequence_grows_without_bound int_of_digits [x31; x3b; x33; x31] [] s).
  - reflexivity.
  - reflexivity.
  - eexists. reflexivity.
  - repeat (apply Forall_cons_2; [reflexivity|]). apply Forall_nil_2.
Defined.

(** X24.  A C0 control byte other than LF, CR and ESC (TAB, BEL, BS, ...) is
    dropped: one byte is accepted, a warning is logged, nothing else
    changes. *)
Theorem write_drops_unsupported_control
    (py_int : list byte -> option Z) (b : byte) (s : RawIOConsole.t) :
  RawIOConsole.CTRL_RANGE (ord b) = true ->
  RawIOConsole.SUPPORTED_C0_CTRL (ord b) = None ->
  RawIOConsole._byte_esc_seq s = [] ->
  RawIOConsole._byte_displaying_char s = [] ->
  RawIOConsole.write py_int [b] s =
    (Ok 1, RawIOConsole.set_log (RawIOConsole.log s ++ [WARNING]) s).
Proof.
  intros Hctrl Hsup Hesc Hdis. destruct s as [c esc dis lg].
  cbn in Hesc, Hdis. subst esc dis.
  destruct b; try discriminate Hctrl; try discriminate Hsup; reflexivity.
Qed.

Lemma write_drops_unsupported_control_witness :
  RawIOConsole.write int_of_digits [x09] (RawIOConsole.__init__ console_2x2) =
    (Ok 1, RawIOConsole.set_log [WARNING] (RawIOConsole.__init__ console_2x2)).
Proof.
  apply (write_drops_unsupported_control int_of_digits x09
           (RawIOConsole.__init__ console_2x2)); reflexivity.
Defined.

(** The loop of [write] over bytes that are no control bytes, outside any
    escape sequence: they are all appended to the pending text. *)
Lemma write_bytes_plain
    (py_int : list byte -> option Z) (bs : list byte) (s : RawIOConsole.t) :
  RawIOConsole._byte_esc_seq s = [] ->
  Forall (fun b => RawIOConsole.CTRL_RANGE (ord b) = false) bs ->
  for_each bs (RawIOConsole.write_byte py_int) s =
    (Ok tt, RawIOConsole.set_byte_displaying_char
              (RawIOConsole._byte_displaying_char s ++ bs) s).
Proof.
  intros Hesc Hall. revert s Hesc.
  induction Hall as [|b bs Hb Hall IH]; intros s Hesc.
  - cbn. rewrite app_nil_r. destruct s. reflexivity.
  - cbn [for_each]. unfold bind at 1.
    assert (Hstep : RawIOConsole.write_byte py_int b s =
                    (Ok tt, RawIOConsole.set_byte_displaying_char
                              (RawIOConsole._byte_displaying_char s ++ [b]) s)).
    { unfold RawIOConsole.write_byte, bind at 1, get at 1. cbn beta iota.
      rewrite Hesc, Hb. reflexivity. }
    rewrite Hstep. rewrite IH by (cbn; exact Hesc).
    cbn [RawIOConsole._byte_displaying_char RawIOConsole.set_byte_displaying_char].
    rewrite <- app_assoc. destruct s. reflexivity.
Qed.

(** X25.  A buffer of well-formed UTF-8 without control byte, received outside
    any escape sequence, is one [add_char] of its text; [write] returns
    the length of the buffer.  When [add_char] raises, the bytes stay in
    [_byte_displaying_char]. *)
Theorem write_plain_text
    (py_int : list byte -> option Z) (bs : list byte) (text : pystr)
    (c : Console.t) (lg : list levelname) :
  utf8_decode bs = inl text -> bs <> [] ->
  Forall (fun b => RawIOConsole.CTRL_RANGE (ord b) = false) bs ->
  RawIOConsole.write py_int bs (RawIOConsole.mk c [] [] lg) =
    match add_char text c with
    | (Ok _, c') => (Ok (len bs), RawIOConsole.mk c' [] [] lg)
    | (Raise e, c') => (Raise e, RawIOConsole.mk c' [] bs lg)
    end.
Proof.
  intros Hdec Hne Hall. unfold RawIOConsole.write.
  rewrite (utf8_check_decodes bs (ex_intro _ text Hdec)). unfold bind at 1.
  rewrite (write_bytes_plain py_int bs (RawIOConsole.mk c [] [] lg) eq_refl Hall).
  change (RawIOConsole.set_byte_displaying_char
            (RawIOConsole._byte_displaying_char (RawIOConsole.mk c [] [] lg) ++ bs)
            (RawIOConsole.mk c [] [] lg))
    with (RawIOConsole.mk c [] bs lg).
  assert (Hflush : RawIOConsole.flush_displaying_char (RawIOConsole.mk c [] bs lg) =
                   match add_char text c with
                   | (Ok _, c') => (Ok tt, RawIOConsole.mk c' [] [] lg)
                   | (Raise e, c') => (Raise e, RawIOConsole.mk c' [] bs lg)
                   end).
  { unfold RawIOConsole.flush_displaying_char, bind at 1, get at 1.
    cbn beta iota. cbn [RawIOConsole._byte_displaying_char].
    replace (len bs >? 0) with true
      by (symmetry; apply Z.gtb_gt; destruct bs;
          [congruence | unfold len; cbn [length]; lia]).
    unfold bind at 1, lift_outcome, bytes_decode. rewrite Hdec.
    unfold bind at 1, RawIOConsole.on_console. cbn [RawIOConsole._console].
    destruct (add_char text c) as [[[]|e] c']; reflexivity. }
  unfold bind. rewrite Hflush.
  destruct (add_char text c) as [[[]|e] c']; reflexivity.
Qed.

Lemma write_plain_text_witness :
  RawIOConsole.write int_of_digits [x68; x69] (RawIOConsole.mk console_2x2 [] [] []) =
    (Ok 2, RawIOConsole.mk console_hi [] [] []).
Proof.
  apply (write_plain_text int_of_digits [x68; x69] (lit "hi") console_2x2 []).
  - vm_compute. reflexivity.
  - discriminate.
  - repeat (apply Forall_cons_2; [reflexivity|]). apply Forall_nil_2.
Defined.

Lemma utf8_decode_at_position (pos : nat) (bs : list byte) (s : pystr) :
  utf8_decode_at pos bs = inl s -> forall pos', utf8_decode_at pos' bs = inl s.
Proof.
  revert s. functional induction (utf8_decode_at pos bs); intros s H pos';
    try discriminate;
    try (rewrite utf8_decode_at_equation; cbv zeta; use_tests;
         apply utf8_cons_inl in H; destruct H as (s' & Hs' & ->);
         match goal with IH : forall _, _ = inl _ -> _ |- _ =>
           rewrite (IH s' Hs') end; reflexivity).
  rewrite utf8_decode_at_equation. exact H.
Qed.

Lemma utf8_decode_app (a b : list byte) (s1 s2 : pystr) :
  utf8_decode a = inl s1 -> utf8_decode b = inl s2 ->
  utf8_decode (a ++ b) = inl (s1 ++ s2).
Proof.
  unfold utf8_decode. generalize 0%nat at 1 3 as pos. intros pos. revert s1.
  functional induction (utf8_decode_at pos a); intros s1 Ha Hb;
    try discriminate;
    try (cbn [app]; rewrite utf8_decode_at_equation; cbv zeta; use_tests;
         apply utf8_cons_inl in Ha; destruct Ha as (s' & Hs' & ->);
         match goal with IH : forall _, _ = inl _ -> _ |- _ =>
           rewrite (IH s' Hs' Hb) end; reflexivity).
  inversion Ha. subst. cbn [app]. apply (utf8_decode_at_position _ _ _ Hb).
Qed.

Lemma decodes_app (a b : list byte) : decodes a -> decodes b -> decodes (a ++ b).
Proof. intros [s1 H1] [s2 H2]. exists (s1 ++ s2). apply utf8_decode_app; assumption. Qed.

(** X26.  The decoder keeps its state between calls: when the bytes of a first
    buffer leave no text pending, as the beginning of an escape sequence
    does, sending a second buffer in a second call does what one call
    with both does, and the two counts add up. *)
Theorem write_in_two_calls
    (py_int : list byte -> option Z) (a b : list byte) (s s1 : RawIOConsole.t) :
  decodes a -> decodes b ->
  for_each a (RawIOConsole.write_byte py_int) s = (Ok tt, s1) ->
  RawIOConsole._byte_displaying_char s1 = [] ->
  (n <- RawIOConsole.write py_int a ;;
   m <- RawIOConsole.write py_int b ;;
   ret (n + m)) s
  = RawIOConsole.write py_int (a ++ b) s.
Proof.
  intros Ha Hb Hrun Hdis. unfold RawIOConsole.write.
  rewrite (utf8_check_decodes a Ha), (utf8_check_decodes b Hb),
    (utf8_check_decodes (a ++ b) (decodes_app a b Ha Hb)).
  assert (Hflush : RawIOConsole.flush_displaying_char s1 = (Ok tt, s1)).
  { unfold RawIOConsole.flush_displaying_char, bind, get. rewrite Hdis. reflexivity. }
  unfold bind. rewrite for_each_app. unfold bind. rewrite Hrun, Hflush.
  unfold ret.
  destruct (for_each b (RawIOConsole.write_byte py_int) s1) as [[[]|e] s2];
    [|reflexivity].
  destruct (RawIOConsole.flush_displaying_char s2) as [[[]|e] s3]; [|reflexivity].
  unfold len. rewrite length_app. f_equal. f_equal. lia.
Qed.

Lemma write_in_two_calls_witness :
  let s := RawIOConsole.__init__ console_2x2 in
  (n <- RawIOConsole.write int_of_digits [x1b; x5b] ;;
   m <- RawIOConsole.write int_of_digits [x31; x6d] ;;
   ret (n + m)) s
  = RawIOConsole.write int_of_digits [x1b; x5b; x31; x6d] s.
Proof.
  intros s.
  apply (write_in_two_calls int_of_digits [x1b; x5b] [x31; x6d] s
           (snd (for_each [x1b; x5b] (RawIOConsole.write_byte int_of_digits) s))).
  - eexists. reflexivity.
  - eexists. reflexivity.
  - reflexivity.
  - reflexivity.
Defined.

(** X27.  For positive glyph metrics and a state that satisfies the invariants:
    an index outside the window has no coordinates; an index inside has
    the coordinates of a glyph box that lies within the
    [width * char_width] by [height * char_height] pixels of the surface
    [_init_console] creates, the index can be read back from them, and
    two indexes of the window never share their coordinates. *)
Theorem chartopixcoord_boxes (cw ch : Z) (c : t) :
  wf c -> 0 < cw -> 0 < ch ->
  (forall i, i < _start_window c \/ _end_window c < i ->
     _chartopixcoord cw ch i c = (Ok None, c))
  /\ (forall i, _start_window c <= i <= _end_window c ->
        exists p, _chartopixcoord cw ch i c = (Ok (Some p), c)
                  /\ 0 <= Coordinates.x p /\ Coordinates.x p + cw <= _width c * cw
                  /\ 0 <= Coordinates.y p /\ Coordinates.y p + ch <= _height c * ch
                  /\ i = _start_window c + (Coordinates.y p / ch) * _width c + Coordinates.x p / cw)
  /\ (forall i j p,
        _chartopixcoord cw ch i c = (Ok (Some p), c) ->
        _chartopixcoord cw ch j c = (Ok (Some p), c) -> i = j).
Proof.
  intros [Hw Hh Hm Hs Hwin He Hc] Hcw Hch.
  assert (Hin : forall i, _start_window c <= i <= _end_window c ->
            _chartopixcoord cw ch i c =
              (Ok (Some (Coordinates.mk ((i - _start_window c) mod _width c * cw)
                           ((i - _start_window c) / _width c * ch))), c)).
  { intros i Hi. unfold _chartopixcoord, bind, get, lift_outcome, floormod, floordiv.
    cbn beta iota.
    destruct (i <? _start_window c) eqn:E1; [lia|].
    destruct (i >? _end_window c) eqn:E2; [lia|].
    destruct (_width c =? 0) eqn:E3; [lia|]. reflexivity. }
  assert (Hout : forall i, i < _start_window c \/ _end_window c < i ->
            _chartopixcoord cw ch i c = (Ok None, c)).
  { intros i Hi. unfold _chartopixcoord, bind, get. cbn beta iota.
    destruct (i <? _start_window c) eqn:E1; [reflexivity|].
    destruct (i >? _end_window c) eqn:E2; [reflexivity | lia]. }
  assert (Hbox : forall i, _start_window c <= i <= _end_window c ->
            let d := i - _start_window c in
            0 <= d mod _width c < _width c /\ 0 <= d / _width c < _height c
            /\ d = _width c * (d / _width c) + d mod _width c).
  { intros i Hi d. subst d.
    pose proof (Z.mod_pos_bound (i - _start_window c) (_width c) Hw).
    pose proof (Z.div_mod (i - _start_window c) (_width c) ltac:(lia)).
    split; [lia|]. split; [|lia]. split.
    - apply Z.div_pos; lia.
    - apply Z.div_lt_upper_bound; nia. }
  split; [exact Hout|]. split.
  - intros i Hi. eexists. split; [apply Hin; exact Hi|]. cbn [Coordinates.x Coordinates.y].
    destruct (Hbox i Hi) as (Hcol & Hrow & Hdm).
    rewrite !Z.div_mul by lia. repeat split; try nia.
  - intros i j p Hi Hj.
    destruct (Z_lt_ge_dec i (_start_window c)) as [Hi1|Hi1];
      [rewrite Hout in Hi by lia; discriminate|].
    destruct (Z_lt_ge_dec (_end_window c) i) as [Hi2|Hi2];
      [rewrite Hout in Hi by lia; discriminate|].
    destruct (Z_lt_ge_dec j (_start_window c)) as [Hj1|Hj1];
      [rewrite Hout in Hj by lia; discriminate|].
    destruct (Z_lt_ge_dec (_end_window c) j) as [Hj2|Hj2];
      [rewrite Hout in Hj by lia; discriminate|].
    rewrite Hin in Hi, Hj by lia. rewrite <- Hj in Hi. clear Hj.
    inversion Hi as [[Hx Hy]].
    destruct (Hbox i ltac:(lia)) as (_ & _ & Hdi).
    destruct (Hbox j ltac:(lia)) as (_ & _ & Hdj).
    apply Z.mul_cancel_r in Hx; [|lia]. apply Z.mul_cancel_r in Hy; [|lia].
    cbv zeta in Hdi, Hdj. rewrite Hx, Hy in Hdi. lia.
Qed.

Lemma chartopixcoord_boxes_witness :
  wf console_hello
  /\ _chartopixcoord 6 10 1 console_hello = (Ok None, console_hello)
  /\ exists p, _chartopixcoord 6 10 5 console_hello = (Ok (Some p), console_hello)
               /\ 5 = 2 + (Coordinates.y p / 10) * 2 + Coordinates.x p / 6.
Proof.
  assert (Hwf : wf console_hello) by (apply wf_check_sound; reflexivity).
  destruct (chartopixcoord_boxes 6 10 console_hello Hwf) as (H1 & H2 & _);
    [lia | lia |].
  split; [exact Hwf|]. split.
  - apply H1. left. reflexivity.
  - destruct (H2 5) as (p & Hp & _ & _ & _ & _ & Hi);
      [vm_compute; split; discriminate|].
    exists p. split; [exact Hp | exact Hi].
Defined.

Lemma init_fields (w h ft bt : Z) :
  let c := snd (__init__ w h ft bt) in
  _width c = w /\ _height c = h /\ _start_window c = 0
  /\ _end_window c = w * h - 1.
Proof.
  unfold __init__. rewrite _render_all_state. repeat split; reflexivity.
Qed.

(** X28.  A name that is new, with transparencies in 0..255, gets a console
    of the dimensions asked for, in a state that satisfies the invariants
    and can be drawn, when the page fits the default memory; asking for
    the same name again returns that console whatever dimensions and
    transparencies are passed, records aside, and no other name is
    touched. *)
Theorem get_console_same_name (name : pystr) (w h ft bt w' h' ft' bt' : Z)
    (reg : gmap pystr t) :
  reg !! name = None -> 0 < w -> 0 < h -> w * h <= DEFAULT_CHAR_MEMORY_SIZE ->
  0 <= ft <= 255 -> 0 <= bt <= 255 ->
  exists c1 reg1 c2 reg2,
    get_console name w h ft bt reg = (Ok c1, reg1)
    /\ get_console name w' h' ft' bt' reg1 = (Ok c2, reg2)
    /\ wf c1 /\ _width c1 = w /\ _height c1 = h
    /\ same_data c1 c2
    /\ reg1 !! name = Some c1 /\ reg2 !! name = Some c2
    /\ (forall other, other <> name ->
          reg1 !! other = reg !! other /\ reg2 !! other = reg !! other)
    /\ renderable c1.
Proof.
  intros Hnew Hw Hh Hm Hft Hbt.
  pose proof (init_renderable w h ft bt Hft Hbt) as Hdraw.
  destruct (wf_init w h ft bt Hw Hh Hm) as (Hok & Hwf).
  unfold get_console at 1. rewrite Hnew.
  destruct (__init__ w h ft bt) as [r self] eqn:Ei. cbn [fst snd] in Hok, Hwf, Hdraw.
  subst r.
  assert (Hwh : _width self = w /\ _height self = h).
  { pose proof (init_fields w h ft bt) as Hf. rewrite Ei in Hf.
    cbn [snd] in Hf. split; apply Hf. }
  set (c1 := set_log _ self).
  set (c2 := set_log (log c1 ++ [INFO; DEBUG]) c1).
  exists c1, (<[name := c1]> reg), c2, (<[name := c2]> (<[name := c1]> reg)).
  split; [reflexivity|].
  split; [unfold get_console; rewrite lookup_insert_eq; reflexivity|].
  split; [apply wf_set_log; exact Hwf|].
  split; [apply Hwh|]. split; [apply Hwh|].
  split; [unfold same_data; destruct c1; reflexivity|].
  split; [apply lookup_insert_eq|]. split; [apply lookup_insert_eq|].
  split; [|apply renderable_set_log; exact Hdraw].
  intros other Hother.
  rewrite !lookup_insert_ne by congruence. split; reflexivity.
Qed.

Lemma get_console_same_name_witness :
  exists c1 reg1 c2 reg2,
    get_console (lit "main") 2 2 255 255 empty = (Ok c1, reg1)
    /\ get_console (lit "main") 80 24 0 0 reg1 = (Ok c2, reg2)
    /\ _width c1 = 2 /\ _height c1 = 2 /\ same_data c1 c2.
Proof.
  destruct (get_console_same_name (lit "main") 2 2 255 255 80 24 0 0 empty)
    as (c1 & reg1 & c2 & reg2 & H1 & H2 & _ & H3 & H4 & H5 & _).
  - apply lookup_empty.
  - lia.
  - lia.
  - unfold DEFAULT_CHAR_MEMORY_SIZE. lia.
  - lia.
  - lia.
  - exists c1, reg1, c2, reg2.
    split; [exact H1|]. split; [exact H2|]. split; [exact H3|].
    split; [exact H4 | exact H5].
Defined.

(** X29.  With transparencies in 0..255, a page larger than the default
    memory makes [get_console] raise [IndexError], but the name is
    recorded all the same: the next call with that name succeeds and
    returns the console whose window reaches beyond its stream and whose
    cells, all blank, can be drawn. *)
Theorem get_console_records_failed_console (name : pystr) (w h ft bt w' h' ft' bt' : Z)
    (reg : gmap pystr t) :
  reg !! name = None -> 0 < w -> 0 < h -> DEFAULT_CHAR_MEMORY_SIZE < w * h ->
  0 <= ft <= 255 -> 0 <= bt <= 255 ->
  exists reg1 c2 reg2,
    get_console name w h ft bt reg = (Raise IndexError, reg1)
    /\ get_console name w' h' ft' bt' reg1 = (Ok c2, reg2)
    /\ _width c2 = w /\ _height c2 = h
    /\ stream_len c2 = DEFAULT_CHAR_MEMORY_SIZE
    /\ stream_len c2 <= _end_window c2
    /\ fst (_render_all c2) = Raise IndexError
    /\ renderable c2.
Proof.
  intros Hnew Hw Hh Hm Hft Hbt.
  pose proof (init_renderable w h ft bt Hft Hbt) as Hdraw.
  destruct (init_beyond_memory w h ft bt Hw Hh Hm) as (Hr & Hlen).
  unfold get_console at 1. rewrite Hnew.
  destruct (__init__ w h ft bt) as [r self] eqn:Ei. cbn [fst snd] in Hr, Hlen, Hdraw.
  subst r.
  assert (Hst : _width self = w /\ _height self = h /\ _start_window self = 0
                /\ _end_window self = w * h - 1).
  { pose proof (init_fields w h ft bt) as Hf. rewrite Ei in Hf.
    cbn [snd] in Hf. exact Hf. }
  destruct Hst as (Hsw & Hsh & Hs0 & He).
  set (c2 := set_log (log self ++ [INFO; DEBUG]) self).
  exists (<[name := self]> reg), c2, (<[name := c2]> (<[name := self]> reg)).
  split; [reflexivity|].
  split; [unfold get_console; rewrite lookup_insert_eq; reflexivity|].
  subst c2.
  assert (Hlen' : forall l, stream_len (set_log l self) = stream_len self)
    by (intros l; destruct self; reflexivity).
  split; [destruct self; exact Hsw|]. split; [destruct self; exact Hsh|].
  split; [rewrite Hlen'; exact Hlen|].
  split; [|split; [|apply renderable_set_log; exact Hdraw]].
  - rewrite Hlen'. replace (_end_window (set_log _ self)) with (_end_window self)
      by (destruct self; reflexivity).
    rewrite Hlen, He. lia.
  - rewrite _render_all_raise; [reflexivity| |].
    + replace (_start_window (set_log _ self)) with (_start_window self)
        by (destruct self; reflexivity).
      replace (_end_window (set_log _ self)) with (_end_window self)
        by (destruct self; reflexivity).
      unfold DEFAULT_CHAR_MEMORY_SIZE in *. lia.
    + rewrite Hlen'. replace (_end_window (set_log _ self)) with (_end_window self)
        by (destruct self; reflexivity).
      rewrite Hlen, He. lia.
Qed.

Lemma get_console_records_failed_console_witness :
  exists reg1 c2 reg2,
    get_console (lit "main") 200 100 255 255 empty = (Raise IndexError, reg1)
    /\ get_console (lit "main") 80 24 255 255 reg1 = (Ok c2, reg2)
    /\ _width c2 = 200 /\ stream_len c2 <= _end_window c2.
Proof.
  destruct (get_console_records_failed_console (lit "main") 200 100 255 255 80 24 255 255 empty)
    as (reg1 & c2 & reg2 & H1 & H2 & H3 & _ & _ & H4 & _).
  - apply lookup_empty.
  - lia.
  - lia.
  - unfold DEFAULT_CHAR_MEMORY_SIZE. lia.
  - lia.
  - lia.
  - exists reg1, c2, reg2.
    split; [exact H1|]. split; [exact H2|]. split; [exact H3 | exact H4].
Defined.


